(** * gemini-url-context-tool

    A shallow embedding of the core client (core/client.py), the
    output/input utilities (utils.py) and the [query] subcommand
    (commands/query_commands.py), with the properties of the specification
    proved about them.

    The objects returned by the remote SDK are dynamic: the client probes
    them with [hasattr], [getattr] and truthiness tests.  They are modelled
    by the type [pyval].  Python strings are sequences of Unicode code
    points, Python floats are binary64 floats.  Code that raises returns in
    an error monad; code that talks to the service or to the terminal
    threads the record of its effects. *)

From Stdlib Require Import ZArith NArith Ascii String DecimalString PrimFloat.
From stdpp Require Import base option list gmap strings.

Set Warnings "-register-all".
Open Scope N_scope.

(** ** Python strings and values *)
Module Py.

(** A Python [str] is a sequence of code points. *)
Abbreviation pystr := (list N).

(** Source literals are ASCII; [py] reads one as a [pystr]. *)
Fixpoint py (s : string) : pystr :=
  match s with
  | EmptyString => []
  | String a s' => N_of_ascii a :: py s'
  end.

(** The line feed of the multi-line messages. *)
Definition nl : pystr := [10].

(** Joins the lines of a message with line feeds, as the adjacent string
    literals of the source do. *)
Fixpoint lines (ls : list string) : pystr :=
  match ls with
  | [] => []
  | [l] => py l
  | l :: ls' => py l ++ nl ++ lines ls'
  end.

(** [str.isspace] on one code point (CPython's [_PyUnicode_IsWhitespace]). *)
Definition isspace (c : N) : bool :=
  ((0x09 <=? c) && (c <=? 0x0D)) || ((0x1C <=? c) && (c <=? 0x20))
  || (c =? 0x85) || (c =? 0xA0) || (c =? 0x1680)
  || ((0x2000 <=? c) && (c <=? 0x200A))
  || (c =? 0x2028) || (c =? 0x2029) || (c =? 0x202F) || (c =? 0x205F)
  || (c =? 0x3000).

Fixpoint lstrip (s : pystr) : pystr :=
  match s with
  | [] => []
  | c :: s' => if isspace c then lstrip s' else s
  end.

Definition rstrip (s : pystr) : pystr := reverse (lstrip (reverse s)).

(** [str.strip()] without argument. *)
Definition strip (s : pystr) : pystr := rstrip (lstrip s).

(** Truthiness of a string: non-empty. *)
Definition str_truthy (s : pystr) : bool :=
  match s with [] => false | _ => true end.

(** [needle in hay] on strings. *)
Fixpoint is_prefix (p s : pystr) : bool :=
  match p, s with
  | [], _ => true
  | a :: p', b :: s' => (a =? b) && is_prefix p' s'
  | _ :: _, [] => false
  end.

Fixpoint contains (needle hay : pystr) : bool :=
  is_prefix needle hay ||
  match hay with
  | [] => false
  | _ :: hay' => contains needle hay'
  end.

(** Values that cross the SDK boundary.  [PObj] is an SDK object with its
    instance attributes; only objects carry the attributes the client
    reads. *)
Inductive pyval :=
| PNone
| PBool (b : bool)
| PInt (z : Z)
| PFloat (f : PrimFloat.float)
| PStr (s : pystr)
| PList (l : list pyval)
| PDict (d : list (pystr * pyval))
| PObj (attrs : list (string * pyval)).

(** A Python [dict] with string keys, in insertion order. *)
Definition pydict := list (pystr * pyval).

Fixpoint dict_get (k : pystr) (d : pydict) : option pyval :=
  match d with
  | [] => None
  | (k', v) :: d' => if decide (k = k') then Some v else dict_get k d'
  end.

(** [d[k] = v]: overwrite in place, or append a new key. *)
Fixpoint dict_set (k : pystr) (v : pyval) (d : pydict) : pydict :=
  match d with
  | [] => [(k, v)]
  | (k', v') :: d' =>
      if decide (k = k') then (k, v) :: d' else (k', v') :: dict_set k v d'
  end.

(** [k in d]. *)
Definition dict_has (k : pystr) (d : pydict) : bool :=
  match dict_get k d with Some _ => true | None => false end.

Fixpoint attr_get (name : string) (attrs : list (string * pyval)) : option pyval :=
  match attrs with
  | [] => None
  | (n, v) :: attrs' => if decide (name = n) then Some v else attr_get name attrs'
  end.

(** The attribute [name] of [v], if [v] has it. *)
Definition attr (v : pyval) (name : string) : option pyval :=
  match v with
  | PObj attrs => attr_get name attrs
  | _ => None
  end.

(** [hasattr(v, name)]. *)
Definition hasattr (v : pyval) (name : string) : bool :=
  match attr v name with Some _ => true | None => false end.

(** [getattr(v, name, dflt)]: the default is used only when the attribute
    does not exist; an attribute holding [None] is returned as it is. *)
Definition getattr (v : pyval) (name : string) (dflt : pyval) : pyval :=
  match attr v name with Some x => x | None => dflt end.

(** [v is None]. *)
Definition is_None (v : pyval) : bool :=
  match v with PNone => true | _ => false end.

(** [bool(v)]. *)
Definition truthy (v : pyval) : bool :=
  match v with
  | PNone => false
  | PBool b => b
  | PInt z => negb (z =? 0)%Z
  | PFloat f => negb (PrimFloat.eqb f PrimFloat.zero)
  | PStr s => str_truthy s
  | PList l => match l with [] => false | _ => true end
  | PDict d => match d with [] => false | _ => true end
  | PObj _ => true
  end.

(** Exceptions: a class and the message [str(e)].  [SdkError] stands for
    whatever exception the SDK call raises; [UnicodeEncodeError] is a
    [ValueError] and is recorded as one. *)
Inductive exc_class :=
| ValueError
| GeminiClientError
| MissingApiKeyError
| QueryError
| AttributeError
| TypeError
| IndexError
| KeyError
| RecursionError
| SdkError.

Record exception := Exc { exc_class_of : exc_class; exc_msg : pystr }.

(** [isinstance(e, cls)] for the classes above: the two client errors
    derive from [GeminiClientError]. *)
Definition isinstance (e : exception) (cls : exc_class) : bool :=
  match exc_class_of e, cls with
  | ValueError, ValueError => true
  | GeminiClientError, GeminiClientError => true
  | MissingApiKeyError, (MissingApiKeyError | GeminiClientError) => true
  | QueryError, (QueryError | GeminiClientError) => true
  | AttributeError, AttributeError => true
  | TypeError, TypeError => true
  | IndexError, IndexError => true
  | KeyError, KeyError => true
  | RecursionError, RecursionError => true
  | SdkError, SdkError => true
  | _, _ => false
  end.

(** [len(v)]. *)
Definition len (v : pyval) : exception + nat :=
  match v with
  | PStr s => inr (length s)
  | PList l => inr (length l)
  | PDict d => inr (length d)
  | _ => inl (Exc TypeError (py "object has no len()"))
  end.

(** The items a [for] loop over [v] visits. *)
Definition iter (v : pyval) : exception + list pyval :=
  match v with
  | PStr s => inr ((λ c, PStr [c]) <$> s)
  | PList l => inr l
  | PDict d => inr ((λ kv, PStr kv.1) <$> d)
  | _ => inl (Exc TypeError (py "object is not iterable"))
  end.

(** [v[0]]. *)
Definition item0 (v : pyval) : exception + pyval :=
  match v with
  | PStr (c :: _) => inr (PStr [c])
  | PList (x :: _) => inr x
  | PStr [] | PList [] => inl (Exc IndexError (py "index out of range"))
  | PDict _ => inl (Exc KeyError (py "0"))
  | _ => inl (Exc TypeError (py "object is not subscriptable"))
  end.

(** [v.name] without a default. *)
Definition getattr_strict (v : pyval) (name : string) : exception + pyval :=
  match attr v name with
  | Some x => inr x
  | None => inl (Exc AttributeError (py "object has no attribute " ++ py name))
  end.

End Py.

(** ** The process environment, the remote service and the effect monad *)
Module Runtime.
Import Py.

(** The capabilities a generation request can carry. *)
Inductive tool := UrlContext | GoogleSearch.

(** One call of [client.models.generate_content]. *)
Record request := Request {
  req_api_key : pystr;
  req_model : pystr;
  req_contents : pystr;
  req_tools : list tool
}.

(** The characters [float.__repr__] writes for a finite float. *)
Inductive float_char :=
| FDigit0 | FDigit1 | FDigit2 | FDigit3 | FDigit4
| FDigit5 | FDigit6 | FDigit7 | FDigit8 | FDigit9
| FPoint | FMinus | FPlus | FExponent.

Definition float_char_code (c : float_char) : N :=
  match c with
  | FDigit0 => 0x30 | FDigit1 => 0x31 | FDigit2 => 0x32 | FDigit3 => 0x33
  | FDigit4 => 0x34 | FDigit5 => 0x35 | FDigit6 => 0x36 | FDigit7 => 0x37
  | FDigit8 => 0x38 | FDigit9 => 0x39
  | FPoint => 0x2E | FMinus => 0x2D | FPlus => 0x2B | FExponent => 0x65
  end.

(** What the code consults outside the repository: [os.environ], the
    standard input stream, the remote service (which answers a request
    with a response object or raises an exception described by a string),
    and the interpreter: its [str()] on values that are not strings, its
    [float.__repr__] on finite floats, the nesting depth its recursion limit
    leaves to [json.dumps] when [format_output] calls it, whether the
    encoding of the standard output can encode a text, and the description
    of the [UnicodeEncodeError] raised when it cannot. *)
Record world := World {
  environ : gmap pystr pystr;
  stdin_isatty : bool;
  stdin_data : pystr;
  generate_content : request → pystr + pyval;
  repr_of : pyval → pystr;
  float_repr : PrimFloat.float → list float_char;
  recursion_budget : nat;
  stdout_encodes : pystr → bool;
  encode_error : pystr → pystr
}.

(** What a run leaves behind: the requests sent to the remote service and
    the texts echoed to the two output streams, oldest first. *)
Record effects := Effects {
  requests : list request;
  stdout : list pystr;
  stderr : list pystr
}.

Definition no_effects : effects := Effects [] [] [].

(** Pure code that can raise. *)
Definition E (A : Type) : Type := exception + A.

#[global] Instance E_ret : MRet E := λ A a, inr a.
#[global] Instance E_bind : MBind E := λ A B f m,
  match m with
  | inl e => inl e
  | inr a => f a
  end.

(** A computation is interrupted by a raised exception or by [sys.exit]. *)
Inductive signal :=
| Raise (e : exception)
| Exit (code : Z).

(** Effectful code: it threads the [effects] and can be interrupted. *)
Definition M (A : Type) : Type := effects → (signal + A) * effects.

#[global] Instance M_ret : MRet M := λ A a fx, (inr a, fx).
#[global] Instance M_bind : MBind M := λ A B f m fx,
  match m fx with
  | (inl s, fx') => (inl s, fx')
  | (inr a, fx') => f a fx'
  end.

Definition raise {A} (e : exception) : M A := λ fx, (inl (Raise e), fx).

Definition lift {A} (r : E A) : M A :=
  match r with
  | inl e => raise e
  | inr a => mret a
  end.

(** [try: body except Exception as e: handler e]; [SystemExit] is not an
    [Exception] and passes through. *)
Definition try_except {A} (body : M A) (handler : exception → M A) : M A :=
  λ fx,
    match body fx with
    | (inl (Raise e), fx') => handler e fx'
    | r => r
    end.

(** [sys.exit(code)]. *)
Definition sys_exit {A} (code : Z) : M A := λ fx, (inl (Exit code), fx).

(** [click.echo(msg)]: the standard output encodes strictly, so a text it
    cannot encode (a lone surrogate under UTF-8) raises [UnicodeEncodeError],
    a [ValueError], and nothing is written. *)
Definition echo (w : world) (msg : pystr) : M unit :=
  λ fx,
    if stdout_encodes w msg
    then (inr (), Effects (requests fx) (stdout fx ++ [msg]) (stderr fx))
    else (inl (Raise (Exc ValueError (encode_error w msg))), fx).

(** [click.echo(msg, err=True)]: the error stream escapes what it cannot
    encode and does not raise. *)
Definition echo_err (msg : pystr) : M unit :=
  λ fx, (inr (), Effects (requests fx) (stdout fx) (stderr fx ++ [msg])).

(** The outbound call: it is recorded, then the service answers. *)
Definition send (w : world) (req : request) : M pyval :=
  λ fx,
    let fx' := Effects (requests fx ++ [req]) (stdout fx) (stderr fx) in
    match generate_content w req with
    | inl description => (inl (Raise (Exc SdkError description)), fx')
    | inr response => (inr response, fx')
    end.

(** [str(v)]. *)
Definition str (w : world) (v : pyval) : pystr :=
  match v with
  | PStr s => s
  | _ => repr_of w v
  end.

End Runtime.

(** ** core/client.py *)
Module Client.
Import Py Runtime.

Record UrlMetadata := mkUrlMetadata {
  retrieved_url : pyval;
  url_retrieval_status : pyval
}.

Record QueryResult := mkQueryResult {
  response_text : pystr;
  url_context_metadata : option (list UrlMetadata);
  grounding_metadata : option pydict
}.

(** The state of a constructed [GeminiClient]: the credential the SDK
    client was built with, and the model. *)
Record GeminiClient := mkGeminiClient {
  client_api_key : pystr;
  model : pystr
}.

Definition missing_api_key_message : pystr :=
  lines [ "GEMINI_API_KEY environment variable is required.";
          "Set it with: export GEMINI_API_KEY='your-api-key'";
          "Get an API key from: https://aistudio.google.com/app/apikey" ]%string.

(** [GeminiClient.__init__]. *)
Definition __init__ (w : world) (api_key : option pystr) : M GeminiClient :=
  let api_key :=
    match api_key with
    | None => environ w !! py "GEMINI_API_KEY"
    | Some k => Some k
    end in
  match api_key with
  | Some k =>
      if str_truthy k
      then mret (mkGeminiClient k (py "gemini-2.5-flash"))
      else raise (Exc MissingApiKeyError missing_api_key_message)
  | None => raise (Exc MissingApiKeyError missing_api_key_message)
  end.

Definition empty_prompt_message : pystr :=
  lines [ "Prompt cannot be empty.";
          "Provide a prompt as argument:";
          "  gemini-url-context-tool query 'your prompt here'";
          "Or read from stdin:";
          "  echo 'your prompt' | gemini-url-context-tool query --stdin" ]%string.

Definition query_failed_message (description : pystr) : pystr :=
  py "Query failed: " ++ description ++ nl ++
  lines [ "Check your API key and network connection.";
          "Verify API key is set: echo $GEMINI_API_KEY" ]%string.

(** [not prompt or not prompt.strip()]. *)
Definition prompt_is_empty (prompt : option pystr) : bool :=
  match prompt with
  | None => true
  | Some p => negb (str_truthy p) || negb (str_truthy (strip p))
  end.

(** The guard [response.candidates and len(response.candidates) > 0],
    followed by [response.candidates[0]] when it holds. *)
Definition first_candidate (response : pyval) : E (option pyval) :=
  candidates ← getattr_strict response "candidates";
  if truthy candidates then
    n ← len candidates;
    if (0 <? n)%nat then
      candidate ← item0 candidates;
      mret (Some candidate)
    else mret None
  else mret None.

(** Lines 135-144: the text of the first candidate's parts. *)
Definition extract_text (w : world) (response : pyval) : E pystr :=
  c ← first_candidate response;
  match c with
  | None => mret []
  | Some candidate =>
      content ← getattr_strict candidate "content";
      if truthy content then
        parts ← getattr_strict content "parts";
        if truthy parts then
          ps ← iter parts;
          mret (concat ((λ part, str w (getattr part "text" PNone))
                          <$> List.filter (λ part, hasattr part "text"
                                              && negb (is_None (getattr part "text" PNone))) ps))
        else mret []
      else mret []
  end.

(** Lines 146-165: the URL metadata of the first candidate. *)
Definition url_metadata_of (url_meta : pyval) : UrlMetadata :=
  mkUrlMetadata (getattr url_meta "retrieved_url" (PStr []))
                (getattr url_meta "url_retrieval_status" (PStr (py "UNKNOWN"))).

Definition extract_url_metadata (response : pyval) : E (option (list UrlMetadata)) :=
  c ← first_candidate response;
  match c with
  | None => mret None
  | Some candidate =>
      match attr candidate "url_context_metadata" with
      | None => mret None
      | Some url_context_metadata =>
          if truthy url_context_metadata then
            match attr url_context_metadata "url_metadata" with
            | None => mret None
            | Some url_meta_attr =>
                if truthy url_meta_attr then
                  entries ← iter url_meta_attr;
                  mret (Some (url_metadata_of <$> entries))
                else mret None
            end
          else mret None
      end
  end.

(** Lines 188-194: the object emitted for one grounding chunk. *)
Definition chunk_dict (chunk : pyval) : pydict :=
  let direct :=
    match attr chunk "uri" with
    | Some uri =>
        dict_set (py "title") (getattr chunk "title" PNone)
          (dict_set (py "uri") uri [])
    | None => []
    end in
  match attr chunk "web" with
  | Some web =>
      if truthy web then
        dict_set (py "title") (getattr web "title" PNone)
          (dict_set (py "uri") (getattr web "uri" PNone) [])
      else direct
  | None => direct
  end.

(** Lines 186-195: the loop that appends one object per chunk. *)
Definition chunks_list_of (chunks : list pyval) : list pyval :=
  foldl (λ chunks_list chunk, chunks_list ++ [PDict (chunk_dict chunk)]) [] chunks.

(** Lines 204-217: what one support entry appends, if anything. *)
Definition support_entries (support : pyval) : list pyval :=
  let segment := getattr support "segment" PNone in
  let chunk_indices := getattr support "grounding_chunk_indices" (PList []) in
  if truthy segment then
    [ PDict [ (py "segment",
               PDict [ (py "start_index", getattr segment "start_index" PNone);
                       (py "end_index", getattr segment "end_index" PNone);
                       (py "text", getattr segment "text" (PStr [])) ]);
              (py "grounding_chunk_indices", chunk_indices) ] ]
  else [].

Definition supports_list_of (supports : list pyval) : list pyval :=
  foldl (λ supports_list support, supports_list ++ support_entries support) [] supports.

(** Lines 179-181. *)
Definition add_web_search_queries (grounding_metadata : pyval) (grounding_dict : pydict)
  : pydict :=
  let web_search_queries := getattr grounding_metadata "web_search_queries" (PList []) in
  if truthy web_search_queries
  then dict_set (py "web_search_queries") web_search_queries grounding_dict
  else grounding_dict.

(** Lines 184-197. *)
Definition add_grounding_chunks (grounding_metadata : pyval) (grounding_dict : pydict)
  : E pydict :=
  let chunks := getattr grounding_metadata "grounding_chunks" (PList []) in
  if truthy chunks then
    cs ← iter chunks;
    let chunks_list := chunks_list_of cs in
    if truthy (PList chunks_list)
    then mret (dict_set (py "grounding_chunks") (PList chunks_list) grounding_dict)
    else mret grounding_dict
  else mret grounding_dict.

(** Lines 200-220. *)
Definition add_grounding_supports (grounding_metadata : pyval) (grounding_dict : pydict)
  : E pydict :=
  let supports := getattr grounding_metadata "grounding_supports" (PList []) in
  if truthy supports then
    ss ← iter supports;
    let supports_list := supports_list_of ss in
    if truthy (PList supports_list)
    then mret (dict_set (py "grounding_supports") (PList supports_list) grounding_dict)
    else mret grounding_dict
  else mret grounding_dict.

(** Lines 175-223, for the [grounding_metadata] of the first candidate. *)
Definition build_grounding_dict (grounding_metadata : pyval) : E (option pydict) :=
  let grounding_dict := add_web_search_queries grounding_metadata [] in
  grounding_dict ← add_grounding_chunks grounding_metadata grounding_dict;
  grounding_dict ← add_grounding_supports grounding_metadata grounding_dict;
  if truthy (PDict grounding_dict) then mret (Some grounding_dict) else mret None.

(** Lines 167-223. *)
Definition extract_grounding (response : pyval) (enable_search verbose : bool)
  : E (option pydict) :=
  if verbose && enable_search then
    c ← first_candidate response;
    match c with
    | None => mret None
    | Some candidate =>
        match attr candidate "grounding_metadata" with
        | None => mret None
        | Some grounding_metadata => build_grounding_dict grounding_metadata
        end
    end
  else mret None.

(** Lines 135-229: the response turned into a [QueryResult]. *)
Definition parse_response (w : world) (response : pyval) (enable_search verbose : bool)
  : E QueryResult :=
  response_text ← extract_text w response;
  url_metadata_list ← extract_url_metadata response;
  grounding_dict ← extract_grounding response enable_search verbose;
  mret (mkQueryResult response_text url_metadata_list grounding_dict).

(** Lines 110-117. *)
Definition tools_for (enable_search : bool) : list tool :=
  if enable_search then [UrlContext; GoogleSearch] else [UrlContext].

(** Lines 119-127: the request sent for a prompt. *)
Definition request_of (self : GeminiClient) (prompt : pystr) (enable_search : bool)
  : request :=
  Request (client_api_key self) (model self) prompt (tools_for enable_search).

(** [GeminiClient.query]. *)
Definition query (w : world) (self : GeminiClient) (prompt : option pystr)
    (enable_search verbose : bool) : M QueryResult :=
  match prompt with
  | Some p =>
      if prompt_is_empty prompt
      then raise (Exc ValueError empty_prompt_message)
      else
        response ←
          try_except
            (send w (request_of self p enable_search))
            (λ e, raise (Exc QueryError (query_failed_message (exc_msg e))));
        lift (parse_response w response enable_search verbose)
  | None => raise (Exc ValueError empty_prompt_message)
  end.

(** [query_with_url_context]. *)
Definition query_with_url_context (w : world) (prompt : option pystr)
    (api_key : option pystr) (enable_search verbose : bool) : M QueryResult :=
  client ← __init__ w api_key;
  query w client prompt enable_search verbose.

End Client.

(** ** [json.dumps(value, indent=2)] of the standard library *)
Module Json.
Import Py Runtime.

Definition hex_digit (d : N) : N :=
  if d <? 10 then 48 + d else 87 + d.

(** ['\\u{0:04x}'.format(n)]. *)
Definition u_escape (n : N) : pystr :=
  py "\u" ++ [ hex_digit (n / 4096 mod 16); hex_digit (n / 256 mod 16);
               hex_digit (n / 16 mod 16); hex_digit (n mod 16) ].

(** One code point under [ensure_ascii=True]. *)
Definition escape_char (c : N) : pystr :=
  if c =? 0x5C then py "\\"
  else if c =? 0x22 then [0x5C; 0x22]
  else if c =? 0x08 then py "\b"
  else if c =? 0x0C then py "\f"
  else if c =? 0x0A then py "\n"
  else if c =? 0x0D then py "\r"
  else if c =? 0x09 then py "\t"
  else if (0x20 <=? c) && (c <=? 0x7E) then [c]
  else if c <? 0x10000 then u_escape c
  else
    let v := c - 0x10000 in
    u_escape (N.lor 0xD800 (N.land (N.shiftr v 10) 0x3FF))
    ++ u_escape (N.lor 0xDC00 (N.land v 0x3FF)).

Definition encode_str (s : pystr) : pystr :=
  [0x22] ++ concat (escape_char <$> s) ++ [0x22].

(** The interpreter's default limit on the number of digits of an integer
    that is converted to text. *)
Definition int_max_str_digits : nat := 4300.

(** The decimal digits of [z], without its sign. *)
Definition int_digits (z : Z) : pystr :=
  match Z.to_int z with
  | Decimal.Pos d | Decimal.Neg d => py (NilZero.string_of_uint d)
  end.

Definition int_sign (z : Z) : pystr :=
  match Z.to_int z with
  | Decimal.Pos _ => []
  | Decimal.Neg _ => py "-"
  end.

Definition int_too_long_message : pystr :=
  py "Exceeds the limit (4300 digits) for integer string conversion; use sys.set_int_max_str_digits() to increase the limit".

(** [int.__repr__(z)], which the encoder uses for integers: it raises
    [ValueError] on an integer with more digits than the limit. *)
Definition encode_int (z : Z) : E pystr :=
  if (int_max_str_digits <? length (int_digits z))%nat
  then inl (Exc ValueError int_too_long_message)
  else inr (int_sign z ++ int_digits z).

(** The encoder's text for a float ([allow_nan] is on by default). *)
Definition encode_float (w : world) (f : PrimFloat.float) : pystr :=
  if PrimFloat.is_nan f then py "NaN"
  else if PrimFloat.eqb f PrimFloat.infinity then py "Infinity"
  else if PrimFloat.eqb f PrimFloat.neg_infinity then py "-Infinity"
  else float_char_code <$> float_repr w f.

(** A line break followed by [level] indentation steps of two spaces. *)
Definition newline_indent (level : nat) : pystr :=
  nl ++ concat (replicate level (py "  ")).

Fixpoint join (sep : pystr) (items : list pystr) : pystr :=
  match items with
  | [] => []
  | [x] => x
  | x :: rest => x ++ sep ++ join sep rest
  end.

Definition bracket (opening closing : string) (level : nat) (items : list pystr) : pystr :=
  py opening ++ newline_indent (S level)
  ++ join (py "," ++ newline_indent (S level)) items
  ++ newline_indent level ++ py closing.

(** The encodings of the items of a list, unless one of them raises. *)
Definition encode_items (enc : pyval → E pystr) : list pyval → E (list pystr) :=
  fix go (l : list pyval) : E (list pystr) :=
    match l with
    | [] => inr []
    | x :: l' =>
        match enc x with
        | inl e => inl e
        | inr s =>
            match go l' with
            | inl e => inl e
            | inr r => inr (s :: r)
            end
        end
    end.

(** The encodings of the members of a dict: the key, a colon, the value. *)
Definition encode_members (enc : pyval → E pystr)
  : list (pystr * pyval) → E (list pystr) :=
  fix go (d : list (pystr * pyval)) : E (list pystr) :=
    match d with
    | [] => inr []
    | (k, x) :: d' =>
        match enc x with
        | inl e => inl e
        | inr s =>
            match go d' with
            | inl e => inl e
            | inr r => inr ((encode_str k ++ py ": " ++ s) :: r)
            end
        end
    end.

Definition not_serializable_message : pystr := py "Object is not JSON serializable".

Definition recursion_message : pystr :=
  py "maximum recursion depth exceeded while encoding a JSON object".

(** The encoder at nesting depth [level].  An SDK object is not
    serializable ([TypeError]); a list or dict nested deeper than the
    interpreter's recursion limit allows raises [RecursionError]. *)
Fixpoint encode (w : world) (level : nat) (v : pyval) {struct v} : E pystr :=
  match v with
  | PNone => inr (py "null")
  | PBool b => inr (py (if b then "true" else "false"))
  | PInt z => encode_int z
  | PFloat f => inr (encode_float w f)
  | PStr s => inr (encode_str s)
  | PList l =>
      if (recursion_budget w <=? level)%nat
      then inl (Exc RecursionError recursion_message)
      else
        match l with
        | [] => inr (py "[]")
        | _ =>
            match encode_items (encode w (S level)) l with
            | inl e => inl e
            | inr items => inr (bracket "[" "]" level items)
            end
        end
  | PDict d =>
      if (recursion_budget w <=? level)%nat
      then inl (Exc RecursionError recursion_message)
      else
        match d with
        | [] => inr (py "{}")
        | _ =>
            match encode_members (encode w (S level)) d with
            | inl e => inl e
            | inr items => inr (bracket "{" "}" level items)
            end
        end
  | PObj _ => inl (Exc TypeError not_serializable_message)
  end.

(** [json.dumps(v, indent=2)]. *)
Definition dumps (w : world) (v : pyval) : E pystr := encode w 0 v.

(** The values the encoder accepts at depth [level] when the interpreter
    leaves it [budget] levels of nesting: JSON-compatible values (no SDK
    object) whose integers are within the digit limit and whose lists and
    dicts are nested within the budget. *)
Fixpoint serializable (budget level : nat) (v : pyval) : bool :=
  match v with
  | PNone | PBool _ | PFloat _ | PStr _ => true
  | PInt z => (length (int_digits z) <=? int_max_str_digits)%nat
  | PList l => (level <? budget)%nat && forallb (serializable budget (S level)) l
  | PDict d =>
      (level <? budget)%nat && forallb (λ kv, serializable budget (S level) kv.2) d
  | PObj _ => false
  end.

End Json.

(** ** utils.py *)
Module Utils.
Import Py Runtime Client.

Definition no_stdin_message : pystr :=
  lines [ "No input from stdin.";
          "Pipe input to the command:";
          "  echo 'your prompt' | gemini-url-context-tool query --stdin";
          "Or provide prompt as argument:";
          "  gemini-url-context-tool query 'your prompt'" ]%string.

Definition stdin_empty_message : pystr :=
  lines [ "Stdin input is empty.";
          "Provide non-empty input:";
          "  echo 'your prompt' | gemini-url-context-tool query --stdin" ]%string.

Definition read_stdin (w : world) : E pystr :=
  if stdin_isatty w then inl (Exc ValueError no_stdin_message)
  else
    let prompt := stdin_data w in
    if negb (str_truthy prompt) || negb (str_truthy (strip prompt))
    then inl (Exc ValueError stdin_empty_message)
    else inr (strip prompt).

(** Lines 82-98: the record that is serialized when [text_only] is off. *)
Definition output_record (result : QueryResult) (verbose search_enabled : bool) : pydict :=
  let output := [ (py "response_text", PStr (response_text result)) ] in
  let output :=
    match url_context_metadata result with
    | Some ((_ :: _) as metas) =>
        dict_set (py "url_context_metadata")
          (PList ((λ url_meta,
                     PDict [ (py "retrieved_url", retrieved_url url_meta);
                             (py "url_retrieval_status", url_retrieval_status url_meta) ])
                    <$> metas))
          output
    | _ => output
    end in
  match grounding_metadata result with
  | Some g =>
      if verbose && search_enabled && truthy (PDict g)
      then dict_set (py "grounding_metadata") (PDict g) output
      else output
  | None => output
  end.

Definition format_output (w : world) (result : QueryResult)
    (text_only verbose search_enabled : bool) : E pystr :=
  if text_only then inr (response_text result)
  else Json.dumps w (PDict (output_record result verbose search_enabled)).

Definition prompt_empty_message : pystr :=
  lines [ "Prompt cannot be empty.";
          "Provide a prompt:";
          "  gemini-url-context-tool query 'your prompt here'";
          "Or read from stdin:";
          "  echo 'your prompt' | gemini-url-context-tool query --stdin" ]%string.

Definition validate_prompt (prompt : option pystr) : E pystr :=
  match prompt with
  | None => inl (Exc ValueError prompt_empty_message)
  | Some p =>
      if negb (str_truthy p) || negb (str_truthy (strip p))
      then inl (Exc ValueError prompt_empty_message)
      else inr (strip p)
  end.

End Utils.

(** ** commands/query_commands.py *)
Module Commands.
Import Py Runtime Client Utils.

Definition both_sources_message : pystr :=
  lines [ "Error: Cannot specify both PROMPT argument and --stdin flag.";
          "Choose one:";
          "  gemini-url-context-tool query 'your prompt'";
          "  echo 'your prompt' | gemini-url-context-tool query --stdin" ]%string.

Definition prompt_required_message : pystr :=
  lines [ "Error: PROMPT argument is required.";
          "Provide a prompt:";
          "  gemini-url-context-tool query 'your prompt here'";
          "Or read from stdin:";
          "  echo 'your prompt' | gemini-url-context-tool query --stdin";
          "For help:";
          "  gemini-url-context-tool query --help" ]%string.

Definition unexpected_message (description : pystr) : pystr :=
  py "Error: Unexpected error: " ++ description ++ nl ++
  lines [ "This may be a bug. Please report at:";
          "  https://github.com/dnvriend/gemini-url-context-tool/issues" ]%string.

Definition error_line (e : exception) : pystr := py "Error: " ++ exc_msg e.

(** Truthiness of the optional positional argument. *)
Definition prompt_given (prompt : option pystr) : bool :=
  match prompt with
  | Some p => str_truthy p
  | None => false
  end.

(** Lines 119-137: the prompt comes from stdin or from the argument. *)
Definition resolve_prompt (w : world) (prompt : option pystr) (stdin : bool)
  : M (option pystr) :=
  if stdin then
    match read_stdin w with
    | inr p => mret (Some p)
    | inl e =>
        if isinstance e ValueError
        then (_ ← echo_err (error_line e); sys_exit 1%Z)
        else raise e
    end
  else if negb (prompt_given prompt) then
    _ ← echo_err prompt_required_message; sys_exit 1%Z
  else mret prompt.

(** Lines 139-149. *)
Definition log_verbose_info (verbose no_search_tool : bool) : M unit :=
  if verbose then
    _ ← echo_err (py "[INFO] Querying with model '" ++ py "gemini-2.5-flash"
                  ++ py "' and URL context tool");
    if negb no_search_tool
    then echo_err (py "[INFO] Google Search tool enabled")
    else echo_err (py "[INFO] Google Search tool disabled")
  else mret ().

(** Lines 171-190: the ordered [except] clauses. *)
Definition handle_error (e : exception) : M unit :=
  if isinstance e MissingApiKeyError then (_ ← echo_err (error_line e); sys_exit 1%Z)
  else if isinstance e QueryError then (_ ← echo_err (error_line e); sys_exit 1%Z)
  else if isinstance e ValueError then (_ ← echo_err (error_line e); sys_exit 1%Z)
  else if isinstance e GeminiClientError then (_ ← echo_err (error_line e); sys_exit 1%Z)
  else (_ ← echo_err (unexpected_message (exc_msg e)); sys_exit 1%Z).

(** The [query] subcommand. *)
Definition query (w : world) (prompt : option pystr)
    (stdin no_search_tool verbose text : bool) : M unit :=
  if stdin && prompt_given prompt then
    _ ← echo_err both_sources_message; sys_exit 1%Z
  else
    prompt ← resolve_prompt w prompt stdin;
    _ ← log_verbose_info verbose no_search_tool;
    try_except
      (result ← query_with_url_context w prompt None (negb no_search_tool) verbose;
       _ ← (if verbose then echo_err (py "[INFO] Query completed successfully")
            else mret ());
       output ← lift (format_output w result text verbose (negb no_search_tool));
       echo w output)
      handle_error.

(** The process status of one invocation, with what it left behind. *)
Definition run (w : world) (prompt : option pystr)
    (stdin no_search_tool verbose text : bool) : Z * effects :=
  match query w prompt stdin no_search_tool verbose text no_effects with
  | (inr _, fx) => (0%Z, fx)
  | (inl (Exit code), fx) => (code, fx)
  | (inl (Raise _), fx) => (1%Z, fx)
  end.

End Commands.

(** ** The vocabulary of the specification *)
Module Spec.
Import Py Runtime Client.

(** A string made of whitespace only; the empty string is one. *)
Definition whitespace_only (s : pystr) : Prop :=
  Forall (λ c, isspace c = true) s.

(** A non-empty string that neither starts nor ends with whitespace. *)
Definition non_whitespace_core (c : pystr) : Prop :=
  ∃ a b, head c = Some a ∧ last c = Some b
         ∧ isspace a = false ∧ isspace b = false.

(** A prompt that is absent, empty or made of whitespace only. *)
Definition blank (prompt : option pystr) : Prop :=
  match prompt with
  | None => True
  | Some s => whitespace_only s
  end.

(** The chunk carries the nested web reference [web]. *)
Definition carries_web (chunk web : pyval) : Prop :=
  attr chunk "web" = Some web ∧ truthy web = true.

(** What the specification says a grounding chunk contributes: the object
    read from the nested web reference; otherwise the one read from the
    direct uri; otherwise the empty object. *)
Definition emitted_for (chunk : pyval) (d : pydict) : Prop :=
  (∃ web, carries_web chunk web
          ∧ d = [ (py "uri", default PNone (attr web "uri"));
                  (py "title", default PNone (attr web "title")) ])
  ∨ ((∀ web, ¬ carries_web chunk web)
     ∧ ∃ uri, attr chunk "uri" = Some uri
              ∧ d = [ (py "uri", uri);
                      (py "title", default PNone (attr chunk "title")) ])
  ∨ ((∀ web, ¬ carries_web chunk web) ∧ attr chunk "uri" = None ∧ d = []).

(** An optional part of the response that is absent ([None] or no such
    attribute) or empty. *)
Definition absent_or_empty (part : option pyval) : Prop :=
  match part with
  | None => True
  | Some v => truthy v = false
  end.

(** What a content part contributes to the response text: nothing when it
    has no [text] or its [text] is [None], otherwise [str] of its text. *)
Definition text_of_part (w : world) (part : pyval) : pystr :=
  match attr part "text" with
  | None | Some PNone => []
  | Some v => str w v
  end.

(** The object emitted for a support entry with the (truthy) segment it
    carries. *)
Definition support_emitted (support out : pyval) : Prop :=
  ∃ segment,
    attr support "segment" = Some segment ∧ truthy segment = true
    ∧ out = PDict
              [ (py "segment",
                 PDict [ (py "start_index", default PNone (attr segment "start_index"));
                         (py "end_index", default PNone (attr segment "end_index"));
                         (py "text", default (PStr []) (attr segment "text")) ]);
                (py "grounding_chunk_indices",
                 default (PList []) (attr support "grounding_chunk_indices")) ].

(** The support entry has no segment, or a falsy one. *)
Definition without_segment (support : pyval) : Prop :=
  absent_or_empty (attr support "segment").

(** The keys a grounding record can have, in the order they are added. *)
Definition grounding_keys : list pystr :=
  [ py "web_search_queries"; py "grounding_chunks"; py "grounding_supports" ].

(** A character of ASCII JSON text: a line feed or a printable ASCII
    character. *)
Definition json_char (c : N) : bool :=
  (c =? 0x0A) || ((0x20 <=? c) && (c <=? 0x7E)).

(** The keys the output record can have, in the order they are added. *)
Definition output_keys : list pystr :=
  [ py "response_text"; py "url_context_metadata"; py "grounding_metadata" ].

(** The object [format_output] renders for one URL metadata entry. *)
Definition url_meta_object (url_meta : UrlMetadata) : pyval :=
  PDict [ (py "retrieved_url", retrieved_url url_meta);
          (py "url_retrieval_status", url_retrieval_status url_meta) ].

(** The progress lines echoed before the query when [verbose] is set. *)
Definition progress_lines (verbose no_search_tool : bool) : list pystr :=
  if verbose then
    [ py "[INFO] Querying with model 'gemini-2.5-flash' and URL context tool";
      py (if no_search_tool then "[INFO] Google Search tool disabled"
          else "[INFO] Google Search tool enabled") ]
  else [].

(** The progress line echoed after a successful query when [verbose] is
    set. *)
Definition completion_lines (verbose : bool) : list pystr :=
  if verbose then [ py "[INFO] Query completed successfully" ] else [].


(** The prompt the command ends up with is [p]: read from stdin when
    [--stdin] is given (and no positional prompt is), the non-empty
    positional prompt otherwise. *)
Definition prompt_resolves_to (w : world) (prompt : option pystr) (stdin : bool)
    (p : pystr) : Prop :=
  if stdin
  then Commands.prompt_given prompt = false ∧ Utils.read_stdin w = inr p
  else prompt = Some p ∧ p ≠ [].

(** The request the command sends for the prompt [p] with the key [k]. *)
Definition command_request (k p : pystr) (no_search_tool : bool) : request :=
  Request k (py "gemini-2.5-flash") p
    (if no_search_tool then [ UrlContext ] else [ UrlContext; GoogleSearch ]).

(** The input contract of [format_output], within the limits of the
    interpreter: the recursion limit leaves room for the record, its list of
    URL metadata and the objects in it; the fields of every URL metadata
    entry (declared [str]) and the grounding record are JSON-compatible
    values whose integers have at most 4300 digits and whose nesting stays
    within the recursion limit. *)
Definition within_contract (w : world) (result : QueryResult) : Prop :=
  (3 ≤ recursion_budget w)%nat
  ∧ (∀ metas m,
       url_context_metadata result = Some metas → m ∈ metas →
       Json.serializable (recursion_budget w) 3 (retrieved_url m) = true
       ∧ Json.serializable (recursion_budget w) 3 (url_retrieval_status m) = true)
  ∧ (∀ g, grounding_metadata result = Some g →
          Json.serializable (recursion_budget w) 1 (PDict g) = true).

(** The classes of the exceptions [json.dumps] raises on the values of the
    model. *)
Definition encoder_error (e : exception) : Prop :=
  exc_class_of e = TypeError ∨ exc_class_of e = ValueError
  ∨ exc_class_of e = RecursionError.

(** The invariant of the data model: a grounding record, if present, is not
    the empty map. *)
Definition keeps_invariant (result : QueryResult) : Prop :=
  grounding_metadata result ≠ Some [].

End Spec.

(** ** Sample responses and worlds *)
Module Fixtures.
Import Py Runtime Client.

Definition sample_chunks : list pyval :=
  [ PObj [ ("web", PObj [ ("uri", PStr (py "https://example.com")) ]) ]%string;
    PObj [ ("web", PNone); ("uri", PStr (py "https://example.org"));
           ("title", PStr (py "Example")) ]%string;
    PObj [ ("web", PNone) ]%string ].

Definition sample_entries : list pyval :=
  [ PObj [ ("retrieved_url", PStr (py "https://example.com"));
           ("url_retrieval_status", PStr (py "URL_RETRIEVAL_STATUS_SUCCESS")) ]%string;
    PObj [] ].

Definition sample_grounding : pyval :=
  PObj [ ("web_search_queries", PList [ PStr (py "test query") ]);
         ("grounding_chunks", PList sample_chunks);
         ("grounding_supports",
          PList [ PObj [ ("segment", PObj [ ("start_index", PInt 0);
                                            ("end_index", PInt 5);
                                            ("text", PStr (py "Hello")) ]);
                         ("grounding_chunk_indices", PList [ PInt 0 ]) ];
                  PObj [ ("segment", PNone) ] ]) ]%string.

Definition sample_candidate : pyval :=
  PObj [ ("content", PObj [ ("parts", PList [ PObj [ ("text", PStr (py "Hello")) ];
                                              PObj [ ("text", PNone) ];
                                              PObj [ ("text", PStr (py " World")) ] ]) ]);
         ("url_context_metadata", PObj [ ("url_metadata", PList sample_entries) ]);
         ("grounding_metadata", sample_grounding) ]%string.

Definition sample_response : pyval :=
  PObj [ ("candidates", PList [ sample_candidate ]) ]%string.


(** A standard output encoded in UTF-8: everything but a surrogate can be
    written. *)
Definition utf8_encodes (text : pystr) : bool :=
  forallb (λ c, negb ((0xD800 <=? c) && (c <=? 0xDFFF))) text.

Definition utf8_encode_error (text : pystr) : pystr :=
  py "'utf-8' codec can't encode character: surrogates not allowed".

(** Floats do not occur in the samples. *)
Definition sample_float_repr (f : PrimFloat.float) : list float_char :=
  [ FDigit0; FPoint; FDigit0 ].

(** A process with a key in its environment, a prompt piped to stdin and a
    service that answers every request with [response]. *)
Definition world_answering (response : pyval) : world :=
  World {[ py "GEMINI_API_KEY" := py "secret" ]} false (py "hi") (λ _, inr response)
        (λ _, py "<object>")
        sample_float_repr 900%nat utf8_encodes utf8_encode_error.

(** A process without a key, at a terminal, whose service is unreachable. *)
Definition world_without_key : world :=
  World ∅ true [] (λ _, inl (py "connection refused")) (λ _, py "<object>")
        sample_float_repr 900%nat utf8_encodes utf8_encode_error.

Definition sample_client : GeminiClient :=
  mkGeminiClient (py "secret") (py "gemini-2.5-flash").

(** A process with a key in its environment, to which [data] is piped, and
    whose service refuses every request. *)
Definition world_refusing (data : pystr) : world :=
  World {[ py "GEMINI_API_KEY" := py "secret" ]} false data
        (λ _, inl (py "connection refused")) (λ _, py "<object>")
        sample_float_repr 900%nat utf8_encodes utf8_encode_error.

(** A response without candidates. *)
Definition no_candidates_response : pyval :=
  PObj [ ("candidates", PNone) ]%string.

(** The verbose, search-enabled query of "hello" against [sample_response]. *)
Definition sample_run : (signal + QueryResult) * effects :=
  query (world_answering sample_response) sample_client (Some (py "hello")) true true
    no_effects.

Definition sample_result : QueryResult :=
  Eval vm_compute in
    match sample_run with
    | (inr r, _) => r
    | _ => mkQueryResult [] None None
    end.

Definition sample_effects : effects :=
  Effects [ request_of sample_client (py "hello") true ] [] [].


(** The search-enabled query of "hello" against [sample_response], without
    [verbose]. *)
Definition quiet_result : QueryResult :=
  Eval vm_compute in
    match query (world_answering sample_response) sample_client (Some (py "hello")) true
            false no_effects with
    | (inr r, _) => r
    | _ => mkQueryResult (py "no result") (Some []) (Some [])
    end.


(** A hand-built result whose text is not ASCII, and its JSON text. *)
Definition unicode_result : QueryResult :=
  mkQueryResult [ 0xE9; 0x1F600; 0x22 ] None None.

Definition unicode_json : pystr :=
  Eval vm_compute in
    match Utils.format_output world_without_key unicode_result false false true with
    | inr s => s
    | inl _ => []
    end.

(** A process with a key in its environment, at a terminal, whose service
    answers every request with [sample_response]. *)
Definition world_at_terminal : world :=
  World {[ py "GEMINI_API_KEY" := py "secret" ]} true [] (λ _, inr sample_response)
        (λ _, py "<object>")
        sample_float_repr 900%nat utf8_encodes utf8_encode_error.

(** A process without a key, to which "hi" is piped. *)
Definition world_piped_without_key : world :=
  World ∅ false (py " hi ") (λ _, inr sample_response) (λ _, py "<object>")
        sample_float_repr 900%nat utf8_encodes utf8_encode_error.

(** The text-mode query of "hello" against [sample_response]. *)
Definition plain_result : QueryResult :=
  Eval vm_compute in
    match query (world_answering sample_response) sample_client (Some (py "hello")) false
            false no_effects with
    | (inr r, _) => r
    | _ => mkQueryResult (py "no result") (Some []) (Some [])
    end.



(** A hand-built result whose grounding record holds an integer of 4301
    digits. *)
Definition huge_int : Z := (10 ^ 4300)%Z.

Definition huge_int_result : QueryResult :=
  mkQueryResult (py "x") None (Some [ (py "n", PInt huge_int) ]).

(** A hand-built result whose grounding record holds a list nested a
    thousand levels deep, more than the interpreter of the sample processes
    has room for. *)
Definition deep_list : pyval := Nat.iter 1000 (λ v, PList [ v ]) PNone.

Definition nested_result : QueryResult :=
  mkQueryResult (py "x") None (Some [ (py "a", deep_list) ]).

(** Responses whose only URL metadata entry has an SDK object, or an
    integer of 4301 digits, as its [retrieved_url]. *)
Definition object_url_response : pyval :=
  PObj [ ("candidates",
          PList [ PObj [ ("content", PNone);
                         ("url_context_metadata",
                          PObj [ ("url_metadata",
                                  PList [ PObj [ ("retrieved_url", PObj []) ] ]) ]) ] ]) ]%string.

Definition huge_int_response : pyval :=
  PObj [ ("candidates",
          PList [ PObj [ ("content", PNone);
                         ("url_context_metadata",
                          PObj [ ("url_metadata",
                                  PList [ PObj [ ("retrieved_url", PInt huge_int) ] ]) ]) ] ]) ]%string.

(** A response whose text is a lone surrogate. *)
Definition surrogate_response : pyval :=
  PObj [ ("candidates",
          PList [ PObj [ ("content",
                          PObj [ ("parts",
                                  PList [ PObj [ ("text", PStr [ 0xD800 ]) ] ]) ]) ] ]) ]%string.

End Fixtures.

(** * Properties *)

Import Py Runtime Spec.

(** ** Strings *)

Lemma lstrip_whitespace_app (l s : pystr) :
  whitespace_only l → lstrip (l ++ s) = lstrip s.
Proof.
  induction 1 as [|c l Hc _ IH]; simpl; [done|].
  by rewrite Hc.
Qed.

Lemma lstrip_whitespace_only (s : pystr) : whitespace_only s → lstrip s = [].
Proof.
  intros H. rewrite <- (app_nil_r s). by rewrite lstrip_whitespace_app.
Qed.

Lemma lstrip_head (a : N) (s : pystr) :
  isspace a = false → lstrip (a :: s) = a :: s.
Proof. intros H. simpl. by rewrite H. Qed.

Lemma whitespace_only_reverse (s : pystr) :
  whitespace_only s → whitespace_only (reverse s).
Proof.
  unfold whitespace_only. rewrite !Forall_forall.
  intros H c Hc. apply H. by apply elem_of_reverse.
Qed.

Lemma strip_whitespace_only (s : pystr) : whitespace_only s → strip s = [].
Proof.
  intros H. unfold strip, rstrip.
  by rewrite (lstrip_whitespace_only s H).
Qed.

Lemma strip_core (l c r : pystr) :
  whitespace_only l → whitespace_only r → non_whitespace_core c →
  strip (l ++ c ++ r) = c.
Proof.
  intros Hl Hr (a & b & Ha & Hb & Hsa & Hsb).
  unfold strip, rstrip. rewrite lstrip_whitespace_app by done.
  destruct c as [|a' c']; [done|]. simpl in Ha. injection Ha as ->.
  change ((a :: c') ++ r) with (a :: (c' ++ r)).
  rewrite lstrip_head by done.
  change (a :: (c' ++ r)) with ((a :: c') ++ r).
  rewrite reverse_app.
  rewrite lstrip_whitespace_app by by apply whitespace_only_reverse.
  apply last_Some in Hb as [c'' Hc''].
  rewrite Hc'', reverse_snoc, lstrip_head by done.
  by rewrite <- reverse_snoc, reverse_involutive.
Qed.

Lemma non_whitespace_core_truthy (l c r : pystr) :
  non_whitespace_core c → str_truthy (l ++ c ++ r) = true.
Proof.
  intros (a & b & Ha & _). destruct c; [done|].
  by destruct l.
Qed.


(** ** utils.py: [validate_prompt] *)

(** C8. For every string made of a non-whitespace core between arbitrary
    leading and trailing whitespace, [validate_prompt] succeeds and returns
    exactly the core; on a prompt that is absent, empty or whitespace-only it
    raises [ValueError] (the InvalidInput error), and the message contains
    "Prompt cannot be empty". *)
Theorem validate_prompt_trims_core_rejects_blank :
  (∀ l c r : pystr,
     whitespace_only l → whitespace_only r → non_whitespace_core c →
     Utils.validate_prompt (Some (l ++ c ++ r)) = inr c)
  ∧ (∀ prompt : option pystr,
       blank prompt →
       Utils.validate_prompt prompt = inl (Exc ValueError Utils.prompt_empty_message))
  ∧ contains (py "Prompt cannot be empty") Utils.prompt_empty_message = true.
Proof.
  split; [|split].
  - intros l c r Hl Hr Hc. unfold Utils.validate_prompt.
    rewrite strip_core by done.
    rewrite non_whitespace_core_truthy by done.
    destruct Hc as (a & _ & Ha & _). by destruct c.
  - intros [s|] Hs; [|done]. simpl in Hs. unfold Utils.validate_prompt.
    rewrite strip_whitespace_only by done. simpl.
    by rewrite orb_true_r.
  - by vm_compute.
Qed.

Lemma validate_prompt_trims_core_rejects_blank_witness :
  Utils.validate_prompt (Some (py "  " ++ py "test prompt" ++ [9; 10]))
  = inr (py "test prompt")
  ∧ Utils.validate_prompt (Some (py "   "))
    = inl (Exc ValueError Utils.prompt_empty_message)
  ∧ Utils.validate_prompt None = inl (Exc ValueError Utils.prompt_empty_message).
Proof.
  split; [|split].
  - apply (proj1 validate_prompt_trims_core_rejects_blank).
    + repeat constructor.
    + repeat constructor.
    + exists 116, 116. repeat split; reflexivity.
  - apply (proj1 (proj2 validate_prompt_trims_core_rejects_blank) (Some (py "   "))).
    repeat constructor.
  - apply (proj1 (proj2 validate_prompt_trims_core_rejects_blank) None).
    exact I.
Defined.

(** ** core/client.py: construction and input validation *)

Lemma blank_prompt_is_empty (prompt : option pystr) :
  blank prompt → Client.prompt_is_empty prompt = true.
Proof.
  destruct prompt as [s|]; [|done]. simpl. intros Hs.
  rewrite strip_whitespace_only by done. by rewrite orb_true_r.
Qed.

(** C5. For every prompt that is absent, empty or whitespace-only, [query]
    raises [ValueError] (the InvalidInput error) with a message that tells
    how to supply a prompt, as an argument or through stdin; the effects are
    left as they were, so no request has been sent. *)
Theorem query_rejects_blank_prompt_before_network
    (w : world) (self : Client.GeminiClient) (prompt : option pystr)
    (enable_search verbose : bool) (fx : effects) :
  blank prompt →
  Client.query w self prompt enable_search verbose fx
  = (inl (Raise (Exc ValueError Client.empty_prompt_message)), fx)
  ∧ contains (py "Prompt cannot be empty") Client.empty_prompt_message = true
  ∧ contains (py "Provide a prompt as argument") Client.empty_prompt_message = true
  ∧ contains (py "Or read from stdin") Client.empty_prompt_message = true
  ∧ contains (py "query --stdin") Client.empty_prompt_message = true.
Proof.
  intros Hb. split; [|by vm_compute].
  unfold Client.query. destruct prompt as [p|]; [|done].
  by rewrite (blank_prompt_is_empty (Some p) Hb).
Qed.

(** C6. Without a supplied credential and without [GEMINI_API_KEY] in the
    environment, construction raises [MissingApiKeyError]; the message tells
    how to set the variable and where to get a key; the one-shot query stops
    there, with the effects as they were: no request has been sent. *)
Theorem init_without_credential_raises_before_network
    (w : world) (prompt : option pystr) (enable_search verbose : bool) (fx : effects) :
  environ w !! py "GEMINI_API_KEY" = None →
  Client.__init__ w None fx
  = (inl (Raise (Exc MissingApiKeyError Client.missing_api_key_message)), fx)
  ∧ Client.query_with_url_context w prompt None enable_search verbose fx
    = (inl (Raise (Exc MissingApiKeyError Client.missing_api_key_message)), fx)
  ∧ contains (py "export GEMINI_API_KEY=") Client.missing_api_key_message = true
  ∧ contains (py "https://aistudio.google.com/app/apikey")
      Client.missing_api_key_message = true.
Proof.
  intros Henv.
  assert (Hinit : Client.__init__ w None fx
    = (inl (Raise (Exc MissingApiKeyError Client.missing_api_key_message)), fx)).
  { unfold Client.__init__. by rewrite Henv. }
  split; [done|]. split; [|by vm_compute].
  unfold Client.query_with_url_context, mbind, M_bind. by rewrite Hinit.
Qed.

(** C10. An explicitly supplied empty credential makes construction raise
    [MissingApiKeyError], whatever the environment holds; this is what
    construction without a credential does when [GEMINI_API_KEY] is unset or
    empty.  No client is bound to the empty credential. *)
Theorem init_empty_credential_raises
    (w : world) (fx : effects) :
  Client.__init__ w (Some []) fx
  = (inl (Raise (Exc MissingApiKeyError Client.missing_api_key_message)), fx)
  ∧ (environ w !! py "GEMINI_API_KEY" = None
     ∨ environ w !! py "GEMINI_API_KEY" = Some [] →
     Client.__init__ w None fx = Client.__init__ w (Some []) fx).
Proof.
  split; [done|].
  intros [H|H]; unfold Client.__init__; by rewrite H.
Qed.

Lemma query_rejects_blank_prompt_before_network_witness :
  Client.query Fixtures.world_without_key Fixtures.sample_client (Some (py " ")) true false
    no_effects
  = (inl (Raise (Exc ValueError Client.empty_prompt_message)), no_effects).
Proof.
  apply (query_rejects_blank_prompt_before_network
           Fixtures.world_without_key Fixtures.sample_client (Some (py " ")) true false
           no_effects).
  repeat constructor.
Defined.

Lemma init_without_credential_raises_before_network_witness :
  Client.query_with_url_context Fixtures.world_without_key (Some (py "hello")) None
    true false no_effects
  = (inl (Raise (Exc MissingApiKeyError Client.missing_api_key_message)), no_effects).
Proof.
  apply (init_without_credential_raises_before_network
           Fixtures.world_without_key (Some (py "hello")) true false no_effects).
  reflexivity.
Defined.

Lemma init_empty_credential_raises_witness :
  Client.__init__ Fixtures.world_without_key None no_effects
  = Client.__init__ Fixtures.world_without_key (Some []) no_effects.
Proof.
  apply (init_empty_credential_raises Fixtures.world_without_key no_effects).
  left. reflexivity.
Defined.

(** ** The two monads *)

Lemma E_bind_inr {A B : Type} (m : E A) (f : A → E B) (b : B) :
  m ≫= f = inr b → ∃ a, m = inr a ∧ f a = inr b.
Proof.
  unfold mbind, E_bind. destruct m as [e|a]; [done|]. eauto.
Qed.

Lemma E_ret_inr {A : Type} (a b : A) : (mret a : E A) = inr b → a = b.
Proof. unfold mret, E_ret. congruence. Qed.

(** ** Python dictionaries *)

Lemma dict_get_set_eq (k : pystr) (v : pyval) (d : pydict) :
  dict_get k (dict_set k v d) = Some v.
Proof.
  induction d as [|[k' v'] d IH]; simpl.
  - by rewrite decide_True.
  - destruct (decide (k = k')) as [->|Hne]; simpl.
    + by rewrite decide_True.
    + by rewrite decide_False.
Qed.

Lemma dict_get_set_ne (k k' : pystr) (v : pyval) (d : pydict) :
  k ≠ k' → dict_get k (dict_set k' v d) = dict_get k d.
Proof.
  intros Hne. induction d as [|[k'' v''] d IH]; simpl.
  - by rewrite decide_False.
  - destruct (decide (k' = k'')) as [->|Hne']; simpl.
    + by rewrite !decide_False.
    + by rewrite IH.
Qed.

Lemma dict_set_nonempty (k : pystr) (v : pyval) (d : pydict) :
  dict_set k v d ≠ [].
Proof. destruct d as [|[k' v'] d]; simpl; [done|]. by case_decide. Qed.

Lemma truthy_PDict (d : pydict) : truthy (PDict d) = true ↔ d ≠ [].
Proof. by destruct d. Qed.

Lemma truthy_PList (l : list pyval) : truthy (PList l) = true ↔ l ≠ [].
Proof. by destruct l. Qed.

(** ** core/client.py: what a successful [query] went through *)

Lemma query_returns_inv (w : world) (self : Client.GeminiClient) (prompt : option pystr)
    (enable_search verbose : bool) (fx fx' : effects) (r : Client.QueryResult) :
  Client.query w self prompt enable_search verbose fx = (inr r, fx') →
  ∃ p response,
    prompt = Some p
    ∧ generate_content w (Client.request_of self p enable_search) = inr response
    ∧ Client.parse_response w response enable_search verbose = inr r
    ∧ requests fx' = requests fx ++ [Client.request_of self p enable_search].
Proof.
  unfold Client.query. destruct prompt as [p|]; [|done].
  destruct (Client.prompt_is_empty (Some p)); [done|].
  unfold mbind, M_bind, try_except, send.
  destruct (generate_content w (Client.request_of self p enable_search))
    as [description|response] eqn:Hsvc; [done|].
  unfold lift.
  destruct (Client.parse_response w response enable_search verbose) as [e|r'] eqn:Hparse;
    [done|].
  unfold mret, M_ret. intros [= <- <-]. by exists p, response.
Qed.

Lemma parse_response_inv (w : world) (response : pyval) (enable_search verbose : bool)
    (r : Client.QueryResult) :
  Client.parse_response w response enable_search verbose = inr r →
  Client.extract_text w response = inr (Client.response_text r)
  ∧ Client.extract_url_metadata response = inr (Client.url_context_metadata r)
  ∧ Client.extract_grounding response enable_search verbose
    = inr (Client.grounding_metadata r).
Proof.
  unfold Client.parse_response. intros H.
  apply E_bind_inr in H as (t & Ht & H).
  apply E_bind_inr in H as (u & Hu & H).
  apply E_bind_inr in H as (g & Hg & H).
  apply E_ret_inr in H as <-. done.
Qed.

(** ** core/client.py: grounding chunks *)

Lemma chunks_list_of_fmap (chunks : list pyval) :
  Client.chunks_list_of chunks = (λ chunk, PDict (Client.chunk_dict chunk)) <$> chunks.
Proof.
  unfold Client.chunks_list_of.
  enough (∀ acc, foldl (λ chunks_list chunk,
                          chunks_list ++ [PDict (Client.chunk_dict chunk)]) acc chunks
                 = acc ++ ((λ chunk, PDict (Client.chunk_dict chunk)) <$> chunks))
    as H by apply (H []).
  induction chunks as [|chunk chunks IH]; intros acc; simpl.
  - by rewrite app_nil_r.
  - by rewrite IH, <- app_assoc.
Qed.

Lemma chunk_dict_emitted (chunk : pyval) : emitted_for chunk (Client.chunk_dict chunk).
Proof.
  unfold emitted_for, Client.chunk_dict, carries_web, getattr.
  destruct (attr chunk "web") as [web|] eqn:Hweb.
  - destruct (truthy web) eqn:Htruthy.
    + left. exists web. split; [done|]. reflexivity.
    + right.
      assert (Hno : ∀ web', ¬ (Some web = Some web' ∧ truthy web' = true)).
      { intros web' [[= <-] Ht]. congruence. }
      destruct (attr chunk "uri") as [uri|].
      * left. split; [done|]. exists uri. split; [done|]. reflexivity.
      * right. done.
  - right.
    assert (Hno : ∀ web', ¬ (None = Some web' ∧ truthy web' = true)).
    { by intros web' [? _]. }
    destruct (attr chunk "uri") as [uri|].
    + left. split; [done|]. exists uri. split; [done|]. reflexivity.
    + right. done.
Qed.

Lemma add_grounding_chunks_list (gm : pyval) (chunks : list pyval) (d : pydict) :
  attr gm "grounding_chunks" = Some (PList chunks) → chunks ≠ [] →
  Client.add_grounding_chunks gm d
  = inr (dict_set (py "grounding_chunks") (PList (Client.chunks_list_of chunks)) d).
Proof.
  intros Hattr Hne. unfold Client.add_grounding_chunks, getattr. rewrite Hattr.
  destruct chunks as [|chunk chunks]; [done|]. simpl truthy. simpl iter.
  unfold mbind, E_bind. rewrite chunks_list_of_fmap. done.
Qed.

Lemma add_grounding_supports_keeps (gm : pyval) (d d' : pydict) (k : pystr) :
  k ≠ py "grounding_supports" →
  Client.add_grounding_supports gm d = inr d' →
  dict_get k d' = dict_get k d ∧ (d ≠ [] → d' ≠ []).
Proof.
  intros Hk. unfold Client.add_grounding_supports.
  destruct (truthy (getattr gm "grounding_supports" (PList []))).
  - intros H. apply E_bind_inr in H as (ss & _ & H).
    destruct (truthy (PList (Client.supports_list_of ss))).
    + apply E_ret_inr in H as <-. split.
      * by apply dict_get_set_ne.
      * intros _. apply dict_set_nonempty.
    + by apply E_ret_inr in H as <-.
  - intros H. by apply E_ret_inr in H as <-.
Qed.

(** C1. The loop over the grounding chunks emits one object per chunk, in
    the order of the chunks: for a chunk with a nested web reference the
    object holds [uri] and [title] read from the reference ([None] where the
    reference lacks them); otherwise, for a chunk with a direct [uri], that
    uri and the chunk's [title] ([None] if it has none); otherwise the empty
    object.  When [verbose] and [enable_search] are set, that list is what
    [query] stores under [grounding_chunks]. *)
Theorem grounding_chunks_emitted_in_order (chunks : list pyval) :
  length (Client.chunks_list_of chunks) = length chunks
  ∧ (∀ (i : nat) (chunk : pyval),
       chunks !! i = Some chunk →
       ∃ d, Client.chunks_list_of chunks !! i = Some (PDict d) ∧ emitted_for chunk d)
  ∧ (∀ w self p fx fx' r response candidate gm,
       Client.query w self (Some p) true true fx = (inr r, fx') →
       generate_content w (Client.request_of self p true) = inr response →
       Client.first_candidate response = inr (Some candidate) →
       attr candidate "grounding_metadata" = Some gm →
       attr gm "grounding_chunks" = Some (PList chunks) →
       chunks ≠ [] →
       ∃ g, Client.grounding_metadata r = Some g
            ∧ dict_get (py "grounding_chunks") g
              = Some (PList (Client.chunks_list_of chunks))).
Proof.
  split; [|split].
  - by rewrite chunks_list_of_fmap, length_fmap.
  - intros i chunk Hi. exists (Client.chunk_dict chunk). split.
    + by rewrite chunks_list_of_fmap, list_lookup_fmap, Hi.
    + apply chunk_dict_emitted.
  - intros w self p fx fx' r response candidate gm Hq Hsvc Hfirst Hgm Hchunks Hne.
    apply query_returns_inv in Hq as (p' & response' & [= <-] & Hsvc' & Hparse & _).
    rewrite Hsvc in Hsvc'. injection Hsvc' as <-.
    apply parse_response_inv in Hparse as (_ & _ & Hg).
    unfold Client.extract_grounding in Hg. simpl in Hg.
    rewrite Hfirst in Hg. unfold mbind at 1, E_bind at 1 in Hg.
    rewrite Hgm in Hg. unfold Client.build_grounding_dict in Hg.
    rewrite (add_grounding_chunks_list gm chunks _ Hchunks Hne) in Hg.
    unfold mbind at 1, E_bind at 1 in Hg.
    apply E_bind_inr in Hg as (d' & Hsup & Hg).
    apply (add_grounding_supports_keeps _ _ _ (py "grounding_chunks")) in Hsup
      as [Hget Hnonempty]; [|done].
    rewrite dict_get_set_eq in Hget.
    specialize (Hnonempty (dict_set_nonempty _ _ _)).
    apply truthy_PDict in Hnonempty. rewrite Hnonempty in Hg.
    apply E_ret_inr in Hg. exists d'. by split.
Qed.

Lemma grounding_chunks_emitted_in_order_witness :
  (∃ d, Client.chunks_list_of Fixtures.sample_chunks !! 1%nat = Some (PDict d)
        ∧ emitted_for
            (PObj [ ("web", PNone); ("uri", PStr (py "https://example.org"));
                    ("title", PStr (py "Example")) ]%string) d)
  ∧ ∃ g, Client.grounding_metadata Fixtures.sample_result = Some g
         ∧ dict_get (py "grounding_chunks") g
           = Some (PList (Client.chunks_list_of Fixtures.sample_chunks)).
Proof.
  split.
  - apply (proj1 (proj2 (grounding_chunks_emitted_in_order Fixtures.sample_chunks))
             1%nat).
    reflexivity.
  - apply (proj2 (proj2 (grounding_chunks_emitted_in_order Fixtures.sample_chunks))
             (Fixtures.world_answering Fixtures.sample_response) Fixtures.sample_client
             (py "hello") no_effects Fixtures.sample_effects Fixtures.sample_result
             Fixtures.sample_response Fixtures.sample_candidate Fixtures.sample_grounding).
    + vm_compute. reflexivity.
    + reflexivity.
    + reflexivity.
    + reflexivity.
    + reflexivity.
    + discriminate.
Defined.

(** ** core/client.py: URL metadata *)

Lemma getattr_default (v : pyval) (name : string) (dflt : pyval) :
  getattr v name dflt = default dflt (attr v name).
Proof. unfold getattr. by destruct (attr v name). Qed.



(** The defaults stand in for attributes the entry does not have; an
    attribute that holds [None] is copied. *)
Example url_metadata_of_copies_present_attributes :
  Client.url_metadata_of (PObj [ ("retrieved_url", PNone) ]%string)
  = Client.mkUrlMetadata PNone (PStr (py "UNKNOWN")).
Proof. reflexivity. Qed.




(** ** core/client.py and utils.py: grounding metadata *)

Lemma build_grounding_dict_nonempty (gm : pyval) (g : pydict) :
  Client.build_grounding_dict gm = inr (Some g) → g ≠ [].
Proof.
  unfold Client.build_grounding_dict. intros H.
  apply E_bind_inr in H as (d1 & _ & H).
  apply E_bind_inr in H as (d2 & _ & H).
  destruct (truthy (PDict d2)) eqn:Hd2; apply E_ret_inr in H; [|done].
  injection H as <-. by apply truthy_PDict.
Qed.

Lemma extract_grounding_nonempty (response : pyval) (enable_search verbose : bool)
    (g : pydict) :
  Client.extract_grounding response enable_search verbose = inr (Some g) → g ≠ [].
Proof.
  unfold Client.extract_grounding.
  destruct (verbose && enable_search); [|intros H; by apply E_ret_inr in H].
  intros H. apply E_bind_inr in H as ([candidate|] & _ & H); [|by apply E_ret_inr in H].
  destruct (attr candidate "grounding_metadata") as [gm|]; [|by apply E_ret_inr in H].
  by apply build_grounding_dict_nonempty in H.
Qed.

Lemma output_record_grounding (result : Client.QueryResult) (verbose search_enabled : bool) :
  dict_get (py "grounding_metadata") (Utils.output_record result verbose search_enabled)
  = match Client.grounding_metadata result with
    | Some g =>
        if verbose && search_enabled && truthy (PDict g) then Some (PDict g) else None
    | None => None
    end.
Proof.
  unfold Utils.output_record.
  set (output := match Client.url_context_metadata result with
                 | Some ((_ :: _) as metas) => _
                 | _ => _
                 end).
  assert (Hout : dict_get (py "grounding_metadata") output = None).
  { subst output. by destruct (Client.url_context_metadata result) as [[|m ms]|]. }
  destruct (Client.grounding_metadata result) as [g|]; [|done].
  destruct (verbose && search_enabled && truthy (PDict g)); [|done].
  apply dict_get_set_eq.
Qed.

(** C3. In every result that [query] returns, [grounding_metadata] is
    either [None] or a non-empty map: when the three extractions (search
    queries, chunks, supports) add nothing, the record is [None]; and
    [format_output] never puts an empty [grounding_metadata] object in its
    output, whatever the result and the flags. *)
Theorem grounding_metadata_never_empty :
  (∀ w self prompt enable_search verbose fx fx' r,
     Client.query w self prompt enable_search verbose fx = (inr r, fx') →
     Client.grounding_metadata r ≠ Some [])
  ∧ (∀ gm : pyval,
       Client.add_web_search_queries gm [] = [] →
       Client.add_grounding_chunks gm [] = inr [] →
       Client.add_grounding_supports gm [] = inr [] →
       Client.build_grounding_dict gm = inr None)
  ∧ (∀ result verbose search_enabled,
       dict_get (py "grounding_metadata")
         (Utils.output_record result verbose search_enabled) ≠ Some (PDict [])).
Proof.
  split; [|split].
  - intros w self prompt enable_search verbose fx fx' r Hq Hempty.
    apply query_returns_inv in Hq as (p & response & _ & _ & Hparse & _).
    apply parse_response_inv in Hparse as (_ & _ & Hg).
    rewrite Hempty in Hg. by apply extract_grounding_nonempty in Hg.
  - intros gm Hq Hc Hs. unfold Client.build_grounding_dict.
    rewrite Hq, Hc. unfold mbind at 1, E_bind at 1.
    rewrite Hs. done.
  - intros result verbose search_enabled. rewrite output_record_grounding.
    destruct (Client.grounding_metadata result) as [g|]; [|done].
    destruct (verbose && search_enabled); simpl; [|done].
    destruct g; simpl; done.
Qed.

Lemma grounding_metadata_never_empty_witness :
  Client.grounding_metadata Fixtures.sample_result ≠ Some []
  ∧ Client.build_grounding_dict PNone = inr None.
Proof.
  split.
  - apply (proj1 grounding_metadata_never_empty
             (Fixtures.world_answering Fixtures.sample_response) Fixtures.sample_client
             (Some (py "hello")) true true no_effects Fixtures.sample_effects).
    vm_compute. reflexivity.
  - apply (proj1 (proj2 grounding_metadata_never_empty) PNone); reflexivity.
Defined.

(** ** utils.py: [format_output] *)

(** C4. For every result that keeps the invariant of the data model (its
    grounding record, if present, is not the empty map), as every result
    that [query] returns does, and every combination of [verbose] and
    [search_enabled]: with [text_only] off [format_output] serializes the
    output record, the record has the key [grounding_metadata] if and only
    if [verbose] is set, [search_enabled] is set and the result's grounding
    record is present, and the value under the key is then the result's
    record itself. *)
Theorem format_output_grounding_key_iff_present :
  (∀ w result verbose search_enabled,
     keeps_invariant result →
     Utils.format_output w result false verbose search_enabled
     = Json.dumps w (PDict (Utils.output_record result verbose search_enabled))
     ∧ (dict_has (py "grounding_metadata")
          (Utils.output_record result verbose search_enabled) = true
        ↔ verbose = true ∧ search_enabled = true
          ∧ Client.grounding_metadata result ≠ None)
     ∧ (∀ v, dict_get (py "grounding_metadata")
               (Utils.output_record result verbose search_enabled) = Some v →
             ∃ g, Client.grounding_metadata result = Some g ∧ v = PDict g))
  ∧ (∀ w self prompt enable_search verbose fx fx' r,
       Client.query w self prompt enable_search verbose fx = (inr r, fx') →
       keeps_invariant r).
Proof.
  split.
  - intros w result verbose search_enabled Hinv. split; [done|].
    unfold keeps_invariant in Hinv.
    unfold dict_has. rewrite output_record_grounding.
    destruct (Client.grounding_metadata result) as [g|]; simpl.
    + destruct g as [|kv g]; [done|].
      destruct verbose, search_enabled; simpl; (split; [split|]); try done;
        try (intros (Hv & Hs & _); done).
      intros v [= <-]. by exists (kv :: g).
    + split; [split|]; try done. intros (_ & _ & Hg). done.
  - intros w self prompt enable_search verbose fx fx' r Hq Hempty.
    apply query_returns_inv in Hq as (p & response & _ & _ & Hparse & _).
    apply parse_response_inv in Hparse as (_ & _ & Hg).
    rewrite Hempty in Hg. by apply extract_grounding_nonempty in Hg.
Qed.

Lemma format_output_grounding_key_iff_present_witness :
  keeps_invariant Fixtures.sample_result
  ∧ ∃ g, Client.grounding_metadata Fixtures.sample_result = Some g
         ∧ dict_get (py "grounding_metadata")
             (Utils.output_record Fixtures.sample_result true true) = Some (PDict g).
Proof.
  assert (Hinv : keeps_invariant Fixtures.sample_result).
  { apply (proj2 format_output_grounding_key_iff_present
             (Fixtures.world_answering Fixtures.sample_response) Fixtures.sample_client
             (Some (py "hello")) true true no_effects Fixtures.sample_effects).
    vm_compute. reflexivity. }
  split; [exact Hinv|].
  destruct (proj1 format_output_grounding_key_iff_present
              (Fixtures.world_answering Fixtures.sample_response)
              Fixtures.sample_result true true Hinv) as (_ & _ & Hverbatim).
  destruct (dict_get (py "grounding_metadata")
              (Utils.output_record Fixtures.sample_result true true)) as [v|] eqn:Hget;
    [|discriminate].
  destruct (Hverbatim v eq_refl) as (g & Hg & ->).
  by exists g.
Defined.

(** Induction on values, with the hypothesis for every item of a list and
    every value of a dict. *)
Lemma pyval_nested_ind (P : pyval → Prop) :
  P PNone → (∀ b, P (PBool b)) → (∀ z, P (PInt z)) → (∀ f, P (PFloat f)) →
  (∀ s, P (PStr s)) →
  (∀ l, Forall P l → P (PList l)) →
  (∀ d, Forall (λ kv, P kv.2) d → P (PDict d)) →
  (∀ attrs, P (PObj attrs)) →
  ∀ v, P v.
Proof.
  intros HNone HBool HInt HFloat HStr HList HDict HObj.
  fix IH 1. intros [|b|z|f|s|l|d|attrs].
  - exact HNone.
  - apply HBool.
  - apply HInt.
  - apply HFloat.
  - apply HStr.
  - apply HList.
    induction l as [|x l IHl]; constructor; [apply IH | exact IHl].
  - apply HDict.
    induction d as [|[k x] d IHd]; constructor; [apply IH | exact IHd].
  - apply HObj.
Qed.

Lemma encode_items_total (enc : pyval → E pystr) (l : list pyval) :
  Forall (λ x, ∃ s, enc x = inr s) l → ∃ items, Json.encode_items enc l = inr items.
Proof.
  induction 1 as [|x l [s Hs] _ [r Hr]]; simpl; [by eexists|].
  rewrite Hs, Hr. by eexists.
Qed.

Lemma encode_members_total (enc : pyval → E pystr) (d : list (pystr * pyval)) :
  Forall (λ kv, ∃ s, enc kv.2 = inr s) d → ∃ items, Json.encode_members enc d = inr items.
Proof.
  induction 1 as [|[k x] d [s Hs] _ [r Hr]]; simpl; [by eexists|].
  simpl in Hs. rewrite Hs, Hr. by eexists.
Qed.

Lemma encode_int_within_limit (z : Z) :
  (length (Json.int_digits z) <=? Json.int_max_str_digits)%nat = true →
  Json.encode_int z = inr (Json.int_sign z ++ Json.int_digits z).
Proof.
  intros H. unfold Json.encode_int. apply Nat.leb_le in H.
  destruct (Nat.ltb_spec Json.int_max_str_digits (length (Json.int_digits z)));
    [lia | done].
Qed.

Lemma budget_check (budget level : nat) :
  (level <? budget)%nat = true → (budget <=? level)%nat = false.
Proof. intros H. apply Nat.ltb_lt in H. apply Nat.leb_gt. lia. Qed.

(** Every serializable value has an encoding. *)
Lemma encode_total (w : world) (v : pyval) :
  ∀ level, Json.serializable (recursion_budget w) level v = true →
           ∃ s, Json.encode w level v = inr s.
Proof.
  induction v as [|b|z|f|s|l IH|d IH|attrs] using pyval_nested_ind;
    intros level Hc; simpl; try done; try by eexists.
  - rewrite encode_int_within_limit by done. by eexists.
  - simpl in Hc. apply andb_true_iff in Hc as [Hlevel Hall].
    rewrite (budget_check _ _ Hlevel).
    destruct l as [|x l]; [by eexists|].
    pose proof (proj1 (forallb_forall _ (x :: l)) Hall) as Hall'.
    destruct (encode_items_total (Json.encode w (S level)) (x :: l)) as [items Hitems].
    { rewrite Forall_forall in IH |- *. intros y Hy.
      apply IH; [done|]. by apply Hall', list_elem_of_In. }
    rewrite Hitems. by eexists.
  - simpl in Hc. apply andb_true_iff in Hc as [Hlevel Hall].
    rewrite (budget_check _ _ Hlevel).
    destruct d as [|kv d]; [by eexists|].
    pose proof (proj1 (forallb_forall _ (kv :: d)) Hall) as Hall'.
    destruct (encode_members_total (Json.encode w (S level)) (kv :: d)) as [items Hitems].
    { rewrite Forall_forall in IH |- *. intros y Hy.
      apply IH; [done|]. by apply (Hall' y), list_elem_of_In. }
    rewrite Hitems. by eexists.
Qed.

Lemma dumps_total (w : world) (v : pyval) :
  Json.serializable (recursion_budget w) 0 v = true → ∃ s, Json.dumps w v = inr s.
Proof. apply encode_total. Qed.

Lemma serializable_dict_set (budget level : nat) (k : pystr) (v : pyval) (d : pydict) :
  Json.serializable budget level (PDict d) = true →
  Json.serializable budget (S level) v = true →
  Json.serializable budget level (PDict (dict_set k v d)) = true.
Proof.
  intros Hd Hv. simpl in Hd |- *.
  apply andb_true_iff in Hd as [Hlevel Hd]. rewrite Hlevel. simpl.
  induction d as [|[k' v'] d IH]; simpl in *.
  - by rewrite Hv.
  - apply andb_true_iff in Hd as [Hv' Hd].
    case_decide; simpl; apply andb_true_iff; auto.
Qed.

Lemma output_record_serializable (w : world) (result : Client.QueryResult)
    (verbose search_enabled : bool) :
  within_contract w result →
  Json.serializable (recursion_budget w) 0
    (PDict (Utils.output_record result verbose search_enabled)) = true.
Proof.
  intros (Hbudget & Hurl & Hg). unfold Utils.output_record.
  assert (H0 : (0 <? recursion_budget w)%nat = true) by (apply Nat.ltb_lt; lia).
  assert (H1 : (1 <? recursion_budget w)%nat = true) by (apply Nat.ltb_lt; lia).
  assert (H2 : (2 <? recursion_budget w)%nat = true) by (apply Nat.ltb_lt; lia).
  set (output := match Client.url_context_metadata result with
                 | Some ((_ :: _) as metas) => _
                 | _ => _
                 end).
  assert (Hout : Json.serializable (recursion_budget w) 0 (PDict output) = true).
  { subst output.
    destruct (Client.url_context_metadata result) as [[|m ms]|] eqn:Hmetas;
      try (simpl; by rewrite H0).
    apply serializable_dict_set; [simpl; by rewrite H0|].
    change (((1 <? recursion_budget w)%nat
             && forallb (Json.serializable (recursion_budget w) 2)
                  ((λ url_meta,
                      PDict [ (py "retrieved_url", Client.retrieved_url url_meta);
                              (py "url_retrieval_status",
                               Client.url_retrieval_status url_meta) ])
                     <$> m :: ms)) = true).
    apply andb_true_iff. split; [exact H1|].
    apply (proj2 (forallb_forall _ _)).
    intros y Hy. apply list_elem_of_In, list_elem_of_fmap in Hy as (m' & -> & Hm').
    destruct (Hurl (m :: ms) m' eq_refl Hm') as [Hr Hs].
    simpl. by rewrite H2, Hr, Hs. }
  destruct (Client.grounding_metadata result) as [g|]; [|done].
  destruct (verbose && search_enabled && truthy (PDict g)); [|done].
  apply serializable_dict_set; [done|]. by apply Hg.
Qed.

(** The claim "never raises on a map of JSON-compatible values" fails on a
    grounding record that holds an integer of more than 4300 digits, where
    the conversion of the integer raises [ValueError], and on a record
    nested deeper than the recursion limit allows, where the encoder raises
    [RecursionError]. *)
Lemma format_output_limits_counterexample :
  Client.grounding_metadata Fixtures.huge_int_result
  = Some [ (py "n", PInt Fixtures.huge_int) ]
  ∧ Utils.format_output Fixtures.world_without_key Fixtures.huge_int_result
      false true true
    = inl (Exc ValueError Json.int_too_long_message)
  ∧ Client.grounding_metadata Fixtures.nested_result
    = Some [ (py "a", Fixtures.deep_list) ]
  ∧ Utils.format_output Fixtures.world_without_key Fixtures.nested_result
      false true true
    = inl (Exc RecursionError Json.recursion_message).
Proof.
  split; [reflexivity|]. split; [by vm_compute|]. split; [reflexivity|].
  by vm_compute.
Qed.

(** C9 (amended). For every result within the input contract and the
    limits of the interpreter (JSON-compatible URL metadata fields and
    grounding record, whose integers have at most 4300 digits and whose
    nesting the recursion limit allows) and every combination of the three
    flags, [format_output] returns a string and does not raise; with
    [text_only] it returns exactly [response_text]. *)
Theorem format_output_total_within_limits
    (w : world) (result : Client.QueryResult) (text_only verbose search_enabled : bool) :
  within_contract w result →
  (∃ s, Utils.format_output w result text_only verbose search_enabled = inr s)
  ∧ Utils.format_output w result true verbose search_enabled
    = inr (Client.response_text result).
Proof.
  intros Hc. split; [|done].
  unfold Utils.format_output. destruct text_only; [by eexists|].
  apply dumps_total. by apply output_record_serializable.
Qed.

Lemma format_output_total_within_limits_witness :
  (∃ s, Utils.format_output Fixtures.world_without_key Fixtures.sample_result
          false true true = inr s)
  ∧ Utils.format_output Fixtures.world_without_key Fixtures.sample_result true true true
    = inr (py "Hello World").
Proof.
  apply (format_output_total_within_limits Fixtures.world_without_key
           Fixtures.sample_result false true true).
  split; [|split].
  - simpl. lia.
  - intros metas m [= <-] Hm.
    repeat (apply elem_of_cons in Hm as [->|Hm]; [split; reflexivity|]).
    by apply elem_of_nil in Hm.
  - intros g [= <-]. reflexivity.
Defined.

(** ** commands/query_commands.py *)

(** The claim "prompt and [--stdin] together always stop the command" fails
    when the positional prompt is the empty string: the guard tests the
    truthiness of the prompt, the prompt piped to stdin is used, a request
    is sent and the command ends with status 0. *)
Lemma query_command_empty_prompt_with_stdin_counterexample :
  is_Some (Some ([] : pystr))
  ∧ (Commands.run (Fixtures.world_answering Fixtures.sample_response)
       (Some []) true false false false).1 = 0%Z
  ∧ requests (Commands.run (Fixtures.world_answering Fixtures.sample_response)
                (Some []) true false false false).2
    = [ Client.request_of Fixtures.sample_client (py "hi") true ]
  ∧ stderr (Commands.run (Fixtures.world_answering Fixtures.sample_response)
              (Some []) true false false false).2 = [].
Proof.
  split; [by eexists|]. by vm_compute.
Qed.

(** C7 (amended). Whenever [--stdin] is given together with a non-empty
    positional prompt, the command echoes to the error stream the message
    that the two are mutually exclusive and how to use each, ends with
    status 1, and leaves nothing else behind: nothing on the standard
    output and no request to the service. *)
Theorem query_command_rejects_prompt_with_stdin
    (w : world) (p : pystr) (no_search_tool verbose text : bool) :
  p ≠ [] →
  Commands.run w (Some p) true no_search_tool verbose text
  = (1%Z, Effects [] [] [ Commands.both_sources_message ])
  ∧ contains (py "Cannot specify both PROMPT argument and --stdin flag")
      Commands.both_sources_message = true
  ∧ contains (py "gemini-url-context-tool query 'your prompt'")
      Commands.both_sources_message = true
  ∧ contains (py "echo 'your prompt' | gemini-url-context-tool query --stdin")
      Commands.both_sources_message = true.
Proof.
  intros Hp. split; [|by vm_compute].
  unfold Commands.run, Commands.query. simpl.
  destruct p as [|c p]; [done|]. reflexivity.
Qed.

Lemma query_command_rejects_prompt_with_stdin_witness :
  Commands.run (Fixtures.world_answering Fixtures.sample_response)
    (Some (py "Summarize https://example.com")) true false true false
  = (1%Z, Effects [] [] [ Commands.both_sources_message ]).
Proof.
  apply (query_command_rejects_prompt_with_stdin
           (Fixtures.world_answering Fixtures.sample_response)
           (py "Summarize https://example.com") false true false).
  discriminate.
Defined.

(** * Further properties of the code *)

(** ** [str.strip] *)

Lemma lstrip_decompose (s : pystr) :
  ∃ l, s = l ++ lstrip s ∧ whitespace_only l.
Proof.
  induction s as [|c s (l & Hl & Hws)]; simpl.
  - exists []. split; [done | constructor].
  - destruct (isspace c) eqn:Hc.
    + exists (c :: l). split; [by rewrite Hl at 1 | by constructor].
    + exists []. split; [done | constructor].
Qed.

Lemma lstrip_head_not_space (s : pystr) (a : N) :
  head (lstrip s) = Some a → isspace a = false.
Proof.
  induction s as [|c s IH]; simpl; [done|].
  destruct (isspace c) eqn:Hc; [done|]. simpl. by intros [= <-].
Qed.

Lemma lstrip_nil_whitespace (s : pystr) : lstrip s = [] → whitespace_only s.
Proof.
  intros H. destruct (lstrip_decompose s) as (l & Hl & Hws).
  rewrite H, app_nil_r in Hl. by subst.
Qed.

Lemma whitespace_only_reverse_inv (s : pystr) :
  whitespace_only (reverse s) → whitespace_only s.
Proof.
  intros H. rewrite <- (reverse_involutive s). by apply whitespace_only_reverse.
Qed.

Lemma rstrip_decompose (s : pystr) :
  ∃ r, s = rstrip s ++ r ∧ whitespace_only r.
Proof.
  unfold rstrip. destruct (lstrip_decompose (reverse s)) as (l & Hl & Hws).
  exists (reverse l). split; [|by apply whitespace_only_reverse].
  by rewrite <- reverse_app, <- Hl, reverse_involutive.
Qed.

Lemma rstrip_last_not_space (s : pystr) (b : N) :
  last (rstrip s) = Some b → isspace b = false.
Proof.
  unfold rstrip. rewrite last_reverse. apply lstrip_head_not_space.
Qed.

Lemma strip_decompose (s : pystr) :
  ∃ l r, s = l ++ strip s ++ r ∧ whitespace_only l ∧ whitespace_only r.
Proof.
  destruct (lstrip_decompose s) as (l & Hl & Hwl).
  destruct (rstrip_decompose (lstrip s)) as (r & Hr & Hwr).
  exists l, r. unfold strip. by rewrite <- Hr.
Qed.

Lemma strip_nonempty_core (s : pystr) :
  strip s ≠ [] → non_whitespace_core (strip s).
Proof.
  intros Hne. unfold non_whitespace_core.
  destruct (strip s) as [|a t] eqn:Hs; [done|].
  destruct (last (a :: t)) as [b|] eqn:Hb.
  2: { by apply last_None in Hb. }
  exists a, b. split; [done|]. split; [done|]. split.
  - destruct (rstrip_decompose (lstrip s)) as (r & Hr & _).
    fold (strip s) in Hr. rewrite Hs in Hr.
    apply (lstrip_head_not_space s). by rewrite Hr.
  - apply (rstrip_last_not_space (lstrip s)). fold (strip s). by rewrite Hs.
Qed.

Lemma strip_nil_whitespace (s : pystr) : strip s = [] → whitespace_only s.
Proof.
  intros H. destruct (strip_decompose s) as (l & r & Hs & Hl & Hr).
  rewrite H in Hs. simpl in Hs. subst s. by apply Forall_app.
Qed.

Lemma str_truthy_nonempty (s : pystr) : str_truthy s = true ↔ s ≠ [].
Proof. by destruct s. Qed.

Lemma prompt_is_empty_blank (prompt : option pystr) :
  Client.prompt_is_empty prompt = true ↔ blank prompt.
Proof.
  split; [|apply blank_prompt_is_empty].
  destruct prompt as [s|]; [|done]. simpl.
  intros H. apply strip_nil_whitespace.
  destruct (strip s) eqn:Hs; [done|].
  destruct s; [done|]. done.
Qed.

Lemma strip_idempotent (s : pystr) : strip (strip s) = strip s.
Proof.
  destruct (strip s) as [|a t] eqn:Hs; [done|]. rewrite <- Hs.
  rewrite <- (app_nil_r (strip s)) at 1.
  apply (strip_core [] (strip s) []); [constructor | constructor |].
  apply strip_nonempty_core. by rewrite Hs.
Qed.

(** ** utils.py: what the validators return *)

Lemma strip_accepted (s : pystr) :
  strip s ≠ [] →
  Client.prompt_is_empty (Some (strip s)) = false
  ∧ Utils.validate_prompt (Some (strip s)) = inr (strip s).
Proof.
  intros Hne. unfold Utils.validate_prompt, Client.prompt_is_empty.
  rewrite strip_idempotent.
  apply str_truthy_nonempty in Hne. by rewrite Hne.
Qed.

(** X1. Whatever [validate_prompt] returns is the prompt without its
    leading and trailing whitespace: the prompt is the result between two
    runs of whitespace, and the result is non-empty and neither starts nor
    ends with whitespace. *)
Theorem validate_prompt_result_is_core (prompt : option pystr) (c : pystr) :
  Utils.validate_prompt prompt = inr c →
  ∃ s l r, prompt = Some s ∧ s = l ++ c ++ r
           ∧ whitespace_only l ∧ whitespace_only r ∧ non_whitespace_core c.
Proof.
  unfold Utils.validate_prompt. destruct prompt as [s|]; [|done].
  destruct (str_truthy s) eqn:Hs; [|done]. simpl.
  destruct (str_truthy (strip s)) eqn:Hc; [|done]. simpl.
  intros [= <-].
  destruct (strip_decompose s) as (l & r & Hdec & Hl & Hr).
  exists s, l, r. repeat split; try done.
  apply strip_nonempty_core. by apply str_truthy_nonempty.
Qed.

Lemma validate_prompt_result_is_core_witness :
  ∃ s l r, Some (py "  hello world ") = Some s ∧ s = l ++ py "hello world" ++ r
           ∧ whitespace_only l ∧ whitespace_only r
           ∧ non_whitespace_core (py "hello world").
Proof.
  apply (validate_prompt_result_is_core (Some (py "  hello world ")) (py "hello world")).
  reflexivity.
Defined.

(** X2. A validated prompt stays as it is when validated again, and the
    client's own check in [query] accepts it. *)
Theorem validate_prompt_idempotent (prompt : option pystr) (c : pystr) :
  Utils.validate_prompt prompt = inr c →
  Utils.validate_prompt (Some c) = inr c
  ∧ Client.prompt_is_empty (Some c) = false.
Proof.
  unfold Utils.validate_prompt at 1. destruct prompt as [s|]; [|done].
  destruct (str_truthy s) eqn:Hs; [|done]. simpl.
  destruct (str_truthy (strip s)) eqn:Hc; [|done]. simpl.
  intros [= <-]. apply str_truthy_nonempty in Hc.
  by destruct (strip_accepted s Hc).
Qed.

Lemma validate_prompt_idempotent_witness :
  Utils.validate_prompt (Some (py "hello")) = inr (py "hello")
  ∧ Client.prompt_is_empty (Some (py "hello")) = false.
Proof.
  apply (validate_prompt_idempotent (Some (py " hello  ")) (py "hello")).
  reflexivity.
Defined.

(** ** core/client.py: the request of a [query] *)

Lemma query_effects_nonblank (w : world) (self : Client.GeminiClient) (p : pystr)
    (enable_search verbose : bool) (fx : effects) :
  Client.prompt_is_empty (Some p) = false →
  (Client.query w self (Some p) enable_search verbose fx).2
  = Effects (requests fx ++ [ Client.request_of self p enable_search ])
      (stdout fx) (stderr fx).
Proof.
  intros Hp. unfold Client.query. rewrite Hp.
  unfold mbind, M_bind, try_except, send.
  destruct (generate_content w (Client.request_of self p enable_search))
    as [description|response]; [done|].
  unfold lift. by destruct (Client.parse_response w response enable_search verbose).
Qed.

(** X3. [query] raises the empty-prompt [ValueError] without sending
    anything exactly for the prompts that are absent, empty or
    whitespace-only, and these are exactly the prompts [validate_prompt]
    rejects. *)
Theorem query_rejects_exactly_blank_prompts
    (w : world) (self : Client.GeminiClient) (prompt : option pystr)
    (enable_search verbose : bool) (fx : effects) :
  (Client.query w self prompt enable_search verbose fx
   = (inl (Raise (Exc ValueError Client.empty_prompt_message)), fx)
   ↔ blank prompt)
  ∧ ((∃ e, Utils.validate_prompt prompt = inl e) ↔ blank prompt).
Proof.
  split; split.
  - intros Hq. apply prompt_is_empty_blank.
    destruct (Client.prompt_is_empty prompt) eqn:Hp; [done|].
    destruct prompt as [p|]; [|done].
    pose proof (query_effects_nonblank w self p enable_search verbose fx Hp) as Hfx.
    rewrite Hq in Hfx. simpl in Hfx.
    apply (f_equal (λ e, length (requests e))) in Hfx. simpl in Hfx.
    rewrite length_app in Hfx. simpl in Hfx. lia.
  - intros Hb. unfold Client.query. destruct prompt as [p|]; [|done].
    by rewrite (blank_prompt_is_empty (Some p) Hb).
  - intros [e He]. apply prompt_is_empty_blank.
    unfold Utils.validate_prompt in He. destruct prompt as [s|]; [|done]. simpl.
    by destruct (negb (str_truthy s) || negb (str_truthy (strip s))).
  - intros Hb. apply prompt_is_empty_blank in Hb.
    unfold Utils.validate_prompt. destruct prompt as [s|]; [|by eexists].
    simpl in Hb. rewrite Hb. by eexists.
Qed.

Lemma query_rejects_exactly_blank_prompts_witness :
  blank (Some [ 9; 32; 0x3000 ]).
Proof.
  apply (proj1 (proj2 (query_rejects_exactly_blank_prompts
                         Fixtures.world_without_key Fixtures.sample_client
                         (Some [ 9; 32; 0x3000 ]) true false no_effects))).
  eexists. reflexivity.
Defined.

(** ** utils.py: [read_stdin] *)



Lemma is_prefix_app (n rest : pystr) : is_prefix n (n ++ rest) = true.
Proof. induction n as [|c n IH]; simpl; [done|]. by rewrite N.eqb_refl. Qed.

Lemma contains_prefix (n hay : pystr) : is_prefix n hay = true → contains n hay = true.
Proof. intros H. destruct hay; simpl; by rewrite H. Qed.

Lemma contains_app (before n rest : pystr) : contains n (before ++ n ++ rest) = true.
Proof.
  induction before as [|c before IH]; simpl.
  - apply contains_prefix, is_prefix_app.
  - rewrite IH. apply orb_true_r.
Qed.

Lemma not_blank_prompt_is_empty (p : pystr) :
  ¬ blank (Some p) → Client.prompt_is_empty (Some p) = false.
Proof.
  intros Hnb. destruct (Client.prompt_is_empty (Some p)) eqn:Hp; [|done].
  by apply prompt_is_empty_blank in Hp.
Qed.

Lemma prompt_is_empty_not_blank (p : pystr) :
  Client.prompt_is_empty (Some p) = false → ¬ blank (Some p).
Proof. intros Hp Hb. apply prompt_is_empty_blank in Hb. congruence. Qed.

(** X5. For a prompt that is not blank, [query] sends exactly one request,
    whatever the service answers and however parsing ends: the request
    carries the client's key and model, the prompt as it was given (not
    stripped), and the URL-context tool, followed by the search tool exactly
    when [enable_search] is set; nothing is written to the output
    streams. *)
Theorem query_sends_exactly_one_request
    (w : world) (self : Client.GeminiClient) (p : pystr)
    (enable_search verbose : bool) (fx : effects) :
  ¬ blank (Some p) →
  (Client.query w self (Some p) enable_search verbose fx).2
  = Effects
      (requests fx
       ++ [ Request (Client.client_api_key self) (Client.model self) p
              (if enable_search then [ UrlContext; GoogleSearch ] else [ UrlContext ]) ])
      (stdout fx) (stderr fx).
Proof.
  intros Hnb. by rewrite query_effects_nonblank by by apply not_blank_prompt_is_empty.
Qed.

Lemma query_sends_exactly_one_request_witness :
  (Client.query (Fixtures.world_refusing []) Fixtures.sample_client
     (Some (py " https://example.com ")) false true no_effects).2
  = Effects
      [ Request (py "secret") (py "gemini-2.5-flash") (py " https://example.com ")
          [ UrlContext ] ]
      [] [].
Proof.
  apply (query_sends_exactly_one_request (Fixtures.world_refusing [])
           Fixtures.sample_client (py " https://example.com ") false true no_effects).
  apply prompt_is_empty_not_blank. reflexivity.
Defined.

(** X6. When the service call raises, [query] raises [QueryError]; its
    message starts with "Query failed: " followed by the description of the
    failure and contains the hint about the key and the network.  The
    request has been sent. *)
Theorem query_failure_is_QueryError
    (w : world) (self : Client.GeminiClient) (p description : pystr)
    (enable_search verbose : bool) (fx : effects) :
  ¬ blank (Some p) →
  generate_content w (Client.request_of self p enable_search) = inl description →
  Client.query w self (Some p) enable_search verbose fx
  = (inl (Raise (Exc QueryError (Client.query_failed_message description))),
     Effects (requests fx ++ [ Client.request_of self p enable_search ])
       (stdout fx) (stderr fx))
  ∧ is_prefix (py "Query failed: " ++ description)
      (Client.query_failed_message description) = true
  ∧ contains (py "Check your API key and network connection.")
      (Client.query_failed_message description) = true.
Proof.
  intros Hnb Hsvc. split; [|split].
  - unfold Client.query. rewrite not_blank_prompt_is_empty by done.
    unfold mbind, M_bind, try_except, send. by rewrite Hsvc.
  - unfold Client.query_failed_message. rewrite (app_assoc _ description).
    apply is_prefix_app.
  - unfold Client.query_failed_message.
    replace (py "Query failed: " ++ description ++ nl ++ _)
      with ((py "Query failed: " ++ description ++ nl)
            ++ py "Check your API key and network connection."
            ++ nl ++ py "Verify API key is set: echo $GEMINI_API_KEY")
      by by rewrite <- !app_assoc.
    apply contains_app.
Qed.

Lemma query_failure_is_QueryError_witness :
  Client.query (Fixtures.world_refusing []) Fixtures.sample_client (Some (py "hello"))
    true false no_effects
  = (inl (Raise (Exc QueryError (Client.query_failed_message (py "connection refused")))),
     Fixtures.sample_effects).
Proof.
  apply (query_failure_is_QueryError (Fixtures.world_refusing []) Fixtures.sample_client
           (py "hello") (py "connection refused") true false no_effects).
  - apply prompt_is_empty_not_blank. reflexivity.
  - reflexivity.
Defined.

(** X7. Unless both [verbose] and [enable_search] are set, the result of
    [query] has no grounding metadata, whatever the response holds. *)
Theorem grounding_requires_verbose_and_search
    (w : world) (self : Client.GeminiClient) (prompt : option pystr)
    (enable_search verbose : bool) (fx fx' : effects) (r : Client.QueryResult) :
  Client.query w self prompt enable_search verbose fx = (inr r, fx') →
  verbose && enable_search = false →
  Client.grounding_metadata r = None.
Proof.
  intros Hq Hflags.
  apply query_returns_inv in Hq as (p & response & _ & _ & Hparse & _).
  apply parse_response_inv in Hparse as (_ & _ & Hg).
  unfold Client.extract_grounding in Hg. rewrite Hflags in Hg.
  by apply E_ret_inr in Hg.
Qed.

(** X8. A response whose [candidates] is [None] or empty gives the empty
    result: no text, no URL metadata and no grounding metadata. *)
Theorem query_without_candidates_gives_empty_result
    (w : world) (self : Client.GeminiClient) (p : pystr)
    (enable_search verbose : bool) (fx : effects) (response candidates : pyval) :
  ¬ blank (Some p) →
  generate_content w (Client.request_of self p enable_search) = inr response →
  attr response "candidates" = Some candidates →
  truthy candidates = false →
  Client.query w self (Some p) enable_search verbose fx
  = (inr (Client.mkQueryResult [] None None),
     Effects (requests fx ++ [ Client.request_of self p enable_search ])
       (stdout fx) (stderr fx)).
Proof.
  intros Hnb Hsvc Hattr Hfalsy.
  assert (Hfirst : Client.first_candidate response = inr None).
  { unfold Client.first_candidate, getattr_strict. rewrite Hattr.
    unfold mbind, E_bind. by rewrite Hfalsy. }
  unfold Client.query. rewrite not_blank_prompt_is_empty by done.
  unfold mbind, M_bind, try_except, send. rewrite Hsvc.
  unfold Client.parse_response, Client.extract_text, Client.extract_url_metadata,
    Client.extract_grounding.
  rewrite Hfirst. by destruct (verbose && enable_search).
Qed.

Lemma grounding_requires_verbose_and_search_witness :
  Client.grounding_metadata Fixtures.quiet_result = None.
Proof.
  apply (grounding_requires_verbose_and_search
           (Fixtures.world_answering Fixtures.sample_response) Fixtures.sample_client
           (Some (py "hello")) true false no_effects Fixtures.sample_effects).
  - vm_compute. reflexivity.
  - reflexivity.
Defined.

Lemma query_without_candidates_gives_empty_result_witness :
  Client.query (Fixtures.world_answering Fixtures.no_candidates_response)
    Fixtures.sample_client (Some (py "hello")) true true no_effects
  = (inr (Client.mkQueryResult [] None None), Fixtures.sample_effects).
Proof.
  apply (query_without_candidates_gives_empty_result
           (Fixtures.world_answering Fixtures.no_candidates_response)
           Fixtures.sample_client (py "hello") true true no_effects
           Fixtures.no_candidates_response PNone).
  - apply prompt_is_empty_not_blank. reflexivity.
  - reflexivity.
  - reflexivity.
  - reflexivity.
Defined.

(** ** core/client.py: construction *)

(** X9. A non-empty credential passed to the constructor is used whatever
    the environment holds; without one, a non-empty [GEMINI_API_KEY] is
    used.  Every client that gets constructed has a non-empty key and the
    model "gemini-2.5-flash", and construction leaves no effects. *)
Theorem init_binds_nonempty_key (w : world) (fx : effects) :
  (∀ k, k ≠ [] →
        Client.__init__ w (Some k) fx
        = (inr (Client.mkGeminiClient k (py "gemini-2.5-flash")), fx))
  ∧ (∀ k, k ≠ [] → environ w !! py "GEMINI_API_KEY" = Some k →
          Client.__init__ w None fx
          = (inr (Client.mkGeminiClient k (py "gemini-2.5-flash")), fx))
  ∧ (∀ api_key client fx',
       Client.__init__ w api_key fx = (inr client, fx') →
       fx' = fx ∧ Client.client_api_key client ≠ []
       ∧ Client.model client = py "gemini-2.5-flash").
Proof.
  split; [|split].
  - intros k Hk. unfold Client.__init__. by destruct k.
  - intros k Hk Henv. unfold Client.__init__. rewrite Henv. by destruct k.
  - intros api_key client fx'. unfold Client.__init__.
    destruct (match api_key with
              | Some k => Some k
              | None => environ w !! py "GEMINI_API_KEY"
              end) as [[|c k]|]; try done.
    simpl. unfold mret, M_ret. by intros [= <- <-].
Qed.

Lemma init_binds_nonempty_key_witness :
  Client.__init__ (Fixtures.world_answering Fixtures.sample_response) (Some (py "explicit"))
    no_effects
  = (inr (Client.mkGeminiClient (py "explicit") (py "gemini-2.5-flash")), no_effects)
  ∧ Client.__init__ (Fixtures.world_answering Fixtures.sample_response) None no_effects
    = (inr Fixtures.sample_client, no_effects).
Proof.
  split.
  - apply (proj1 (init_binds_nonempty_key
                    (Fixtures.world_answering Fixtures.sample_response) no_effects)).
    discriminate.
  - apply (proj1 (proj2 (init_binds_nonempty_key
                           (Fixtures.world_answering Fixtures.sample_response)
                           no_effects)) (py "secret")).
    + discriminate.
    + reflexivity.
Defined.

(** ** core/client.py: the response text *)

Lemma text_of_part_selected (w : world) (part : pyval) :
  text_of_part w part
  = if hasattr part "text" && negb (is_None (getattr part "text" PNone))
    then str w (getattr part "text" PNone)
    else [].
Proof.
  unfold text_of_part, hasattr, getattr.
  by destruct (attr part "text") as [[]|].
Qed.

Lemma joined_text_of_parts (w : world) (parts : list pyval) :
  concat ((λ part, str w (getattr part "text" PNone))
            <$> List.filter (λ part, hasattr part "text"
                                     && negb (is_None (getattr part "text" PNone))) parts)
  = concat (text_of_part w <$> parts).
Proof.
  induction parts as [|part parts IH]; [done|].
  rewrite fmap_cons. cbn [concat List.filter].
  rewrite text_of_part_selected, <- IH.
  by destruct (hasattr part "text" && negb (is_None (getattr part "text" PNone))).
Qed.

(** X10. The response text of a result is the texts of the first
    candidate's content parts joined in order: a part without [text], or
    whose [text] is [None], adds nothing, and a string text is taken as it
    is.  When the content or its parts are [None] or empty the text is
    empty. *)
Theorem response_text_joins_parts
    (w : world) (self : Client.GeminiClient) (p : pystr) (enable_search verbose : bool)
    (fx fx' : effects) (r : Client.QueryResult) (response candidate content : pyval) :
  Client.query w self (Some p) enable_search verbose fx = (inr r, fx') →
  generate_content w (Client.request_of self p enable_search) = inr response →
  Client.first_candidate response = inr (Some candidate) →
  attr candidate "content" = Some content →
  (truthy content = false → Client.response_text r = [])
  ∧ (∀ parts, truthy content = true → attr content "parts" = Some parts →
              truthy parts = false → Client.response_text r = [])
  ∧ (∀ parts, truthy content = true → attr content "parts" = Some (PList parts) →
              Client.response_text r = concat (text_of_part w <$> parts)).
Proof.
  intros Hq Hsvc Hfirst Hcontent.
  apply query_returns_inv in Hq as (p' & response' & [= <-] & Hsvc' & Hparse & _).
  rewrite Hsvc in Hsvc'. injection Hsvc' as <-.
  apply parse_response_inv in Hparse as (Ht & _ & _).
  unfold Client.extract_text in Ht. rewrite Hfirst in Ht.
  unfold mbind at 1, E_bind at 1 in Ht.
  unfold getattr_strict in Ht. rewrite Hcontent in Ht.
  unfold mbind at 1, E_bind at 1 in Ht.
  split; [|split].
  - intros Hfalsy. rewrite Hfalsy in Ht. by apply E_ret_inr in Ht.
  - intros parts Htruthy Hparts Hfalsy. rewrite Htruthy, Hparts in Ht.
    unfold mbind at 1, E_bind at 1 in Ht. rewrite Hfalsy in Ht.
    by apply E_ret_inr in Ht.
  - intros parts Htruthy Hparts. rewrite Htruthy, Hparts in Ht.
    unfold mbind at 1, E_bind at 1 in Ht.
    destruct parts as [|part parts]; [by apply E_ret_inr in Ht|].
    simpl truthy in Ht. simpl iter in Ht.
    unfold mbind at 1, E_bind at 1 in Ht.
    apply E_ret_inr in Ht. rewrite <- Ht. apply joined_text_of_parts.
Qed.

Lemma response_text_joins_parts_witness :
  Client.response_text Fixtures.sample_result
  = concat (text_of_part (Fixtures.world_answering Fixtures.sample_response)
              <$> [ PObj [ ("text", PStr (py "Hello")) ]%string;
                    PObj [ ("text", PNone) ]%string;
                    PObj [ ("text", PStr (py " World")) ]%string ]).
Proof.
  refine (proj2 (proj2 (response_text_joins_parts
            (Fixtures.world_answering Fixtures.sample_response) Fixtures.sample_client
            (py "hello") true true no_effects Fixtures.sample_effects
            Fixtures.sample_result Fixtures.sample_response Fixtures.sample_candidate
            _ _ _ _ _)) _ _ _).
  - vm_compute. reflexivity.
  - reflexivity.
  - reflexivity.
  - reflexivity.
  - reflexivity.
  - reflexivity.
Defined.

(** ** core/client.py: grounding supports and the grounding record *)

Lemma supports_list_of_concat (supports : list pyval) :
  Client.supports_list_of supports = concat (Client.support_entries <$> supports).
Proof.
  unfold Client.supports_list_of.
  enough (∀ acc, foldl (λ supports_list support,
                          supports_list ++ Client.support_entries support) acc supports
                 = acc ++ concat (Client.support_entries <$> supports))
    as H by apply (H []).
  induction supports as [|support supports IH]; intros acc; simpl.
  - by rewrite app_nil_r.
  - by rewrite IH, <- app_assoc.
Qed.

Lemma support_entries_without_segment (support : pyval) :
  without_segment support → Client.support_entries support = [].
Proof.
  unfold without_segment, absent_or_empty, Client.support_entries, getattr.
  destruct (attr support "segment") as [segment|]; [|done]. by intros ->.
Qed.

Lemma support_entries_with_segment (support : pyval) :
  ¬ without_segment support →
  ∃ out, Client.support_entries support = [ out ] ∧ support_emitted support out.
Proof.
  unfold without_segment, absent_or_empty, Client.support_entries, support_emitted.
  rewrite (getattr_default support "segment").
  destruct (attr support "segment") as [segment|]; [|done]. simpl.
  destruct (truthy segment) eqn:Hseg; [|done]. intros _.
  eexists. split; [done|]. exists segment. by rewrite !getattr_default.
Qed.

Lemma supports_list_of_all_skipped (supports : list pyval) :
  Forall without_segment supports → Client.supports_list_of supports = [].
Proof.
  rewrite supports_list_of_concat.
  induction 1 as [|support supports Hs _ IH]; [done|].
  rewrite fmap_cons. cbn [concat].
  by rewrite support_entries_without_segment, IH.
Qed.

(** X11. The loop over the grounding supports handles the entries one by
    one and in order: an entry whose segment is missing, [None] or empty is
    skipped, every other entry adds exactly one object with its segment
    ([start_index], [end_index], [text], the text defaulting to the empty
    string) and its [grounding_chunk_indices] (defaulting to the empty
    list).  When every entry is skipped no [grounding_supports] key is
    added. *)
Theorem grounding_supports_skip_entries_without_segment (supports more : list pyval) :
  Client.supports_list_of (supports ++ more)
  = Client.supports_list_of supports ++ Client.supports_list_of more
  ∧ (∀ support, without_segment support → Client.supports_list_of [ support ] = [])
  ∧ (∀ support, ¬ without_segment support →
                ∃ out, Client.supports_list_of [ support ] = [ out ]
                       ∧ support_emitted support out)
  ∧ (∀ gm d, attr gm "grounding_supports" = Some (PList supports) →
             Forall without_segment supports →
             Client.add_grounding_supports gm d = inr d).
Proof.
  split; [|split; [|split]].
  - by rewrite !supports_list_of_concat, fmap_app, concat_app.
  - intros support Hs. rewrite supports_list_of_concat. simpl.
    by rewrite support_entries_without_segment.
  - intros support Hs. rewrite supports_list_of_concat. simpl.
    destruct (support_entries_with_segment support Hs) as (out & -> & Hout).
    by exists out.
  - intros gm d Hattr Hall. unfold Client.add_grounding_supports, getattr.
    rewrite Hattr. destruct supports as [|support supports]; [done|].
    simpl truthy. simpl iter. unfold mbind, E_bind.
    by rewrite (supports_list_of_all_skipped _ Hall).
Qed.

Lemma grounding_supports_skip_entries_without_segment_witness :
  Client.supports_list_of [ PObj [ ("segment", PNone) ]%string ] = []
  ∧ (∃ out, Client.supports_list_of
              [ PObj [ ("segment", PObj [ ("text", PStr (py "Hello")) ]) ]%string ]
            = [ out ]
            ∧ support_emitted
                (PObj [ ("segment", PObj [ ("text", PStr (py "Hello")) ]) ]%string) out)
  ∧ Client.add_grounding_supports
      (PObj [ ("grounding_supports", PList [ PObj [] ]) ]%string) []
    = inr [].
Proof.
  destruct (grounding_supports_skip_entries_without_segment [ PObj [] ] [])
    as (_ & Hskip & Hemit & Hkey).
  split; [|split].
  - apply Hskip. reflexivity.
  - apply Hemit. discriminate.
  - apply Hkey; [reflexivity|]. repeat constructor.
Defined.

Lemma add_grounding_chunks_cases (gm : pyval) (d d' : pydict) :
  Client.add_grounding_chunks gm d = inr d' →
  d' = d ∨ ∃ chunks_list, chunks_list ≠ []
                          ∧ d' = dict_set (py "grounding_chunks") (PList chunks_list) d.
Proof.
  unfold Client.add_grounding_chunks.
  destruct (truthy (getattr gm "grounding_chunks" (PList []))).
  - intros H. apply E_bind_inr in H as (cs & _ & H).
    destruct (truthy (PList (Client.chunks_list_of cs))) eqn:Hc;
      apply E_ret_inr in H as <-; [|by left].
    right. eexists. split; [|done]. by apply truthy_PList.
  - intros H. apply E_ret_inr in H as <-. by left.
Qed.

Lemma add_grounding_supports_cases (gm : pyval) (d d' : pydict) :
  Client.add_grounding_supports gm d = inr d' →
  d' = d ∨ ∃ supports_list, supports_list ≠ []
                            ∧ d' = dict_set (py "grounding_supports")
                                     (PList supports_list) d.
Proof.
  unfold Client.add_grounding_supports.
  destruct (truthy (getattr gm "grounding_supports" (PList []))).
  - intros H. apply E_bind_inr in H as (ss & _ & H).
    destruct (truthy (PList (Client.supports_list_of ss))) eqn:Hc;
      apply E_ret_inr in H as <-; [|by left].
    right. eexists. split; [|done]. by apply truthy_PList.
  - intros H. apply E_ret_inr in H as <-. by left.
Qed.

Lemma dict_set_values_truthy (k : pystr) (x : pyval) (d : pydict) :
  (∀ k' v, dict_get k' d = Some v → truthy v = true) →
  truthy x = true →
  ∀ k' v, dict_get k' (dict_set k x d) = Some v → truthy v = true.
Proof.
  intros Hd Hx k' v. destruct (decide (k' = k)) as [->|Hne].
  - rewrite dict_get_set_eq. by intros [= <-].
  - rewrite dict_get_set_ne by done. apply Hd.
Qed.

(** X12. A grounding record that [query] builds has its keys among
    [web_search_queries], [grounding_chunks], [grounding_supports], each at
    most once and in that order, and every value in it is non-empty; the
    search queries of the response are stored as they are. *)
Theorem grounding_record_keys_and_values (gm : pyval) (g : pydict) :
  Client.build_grounding_dict gm = inr (Some g) →
  g.*1 `sublist_of` grounding_keys
  ∧ (∀ k v, dict_get k g = Some v → truthy v = true)
  ∧ (∀ queries, attr gm "web_search_queries" = Some queries →
                truthy queries = true →
                dict_get (py "web_search_queries") g = Some queries).
Proof.
  unfold Client.build_grounding_dict. intros H.
  apply E_bind_inr in H as (d1 & Hchunks & H).
  apply E_bind_inr in H as (d2 & Hsupports & H).
  destruct (truthy (PDict d2)); apply E_ret_inr in H; [|done].
  injection H as <-.
  apply add_grounding_chunks_cases in Hchunks.
  apply add_grounding_supports_cases in Hsupports.
  unfold Client.add_web_search_queries in Hchunks.
  rewrite (getattr_default gm "web_search_queries") in Hchunks.
  assert (Hcl : ∀ l : list pyval, l ≠ [] → truthy (PList l) = true)
    by (intros l; by destruct l).
  assert (Hnil : ∀ (k : pystr) (v : pyval), dict_get k [] = Some v → truthy v = true)
    by done.
  destruct (truthy (default (PList []) (attr gm "web_search_queries"))) eqn:Hq;
    destruct Hchunks as [->|(cl & Hclne & ->)];
    destruct Hsupports as [->|(sl & Hslne & ->)];
    (split; [|split]).
  all: try (vm_compute;
            repeat first [apply sublist_nil | apply sublist_skip | apply sublist_cons];
            fail).
  all: try (repeat (apply dict_set_values_truthy; [|by auto]); exact Hnil).
  all: intros queries Hsome Htruthy; rewrite Hsome in Hq; simpl in Hq.
  all: try congruence.
  all: rewrite Hsome; rewrite ?dict_get_set_ne by done; apply dict_get_set_eq.
Qed.

Lemma grounding_record_keys_and_values_witness :
  (default [] (Client.grounding_metadata Fixtures.sample_result)).*1
  `sublist_of` grounding_keys
  ∧ dict_get (py "web_search_queries")
      (default [] (Client.grounding_metadata Fixtures.sample_result))
    = Some (PList [ PStr (py "test query") ]).
Proof.
  destruct (grounding_record_keys_and_values Fixtures.sample_grounding
              (default [] (Client.grounding_metadata Fixtures.sample_result)))
    as (Hkeys & _ & Hqueries).
  - vm_compute. reflexivity.
  - split; [exact Hkeys|]. apply Hqueries; reflexivity.
Defined.

(** ** utils.py: [format_output] and the JSON text *)



Lemma encode_items_raises (enc : pyval → E pystr) (l : list pyval) (e : exception) :
  Json.encode_items enc l = inl e → ∃ x, x ∈ l ∧ enc x = inl e.
Proof.
  induction l as [|x l IH]; simpl; [done|].
  destruct (enc x) as [e'|s] eqn:Hx.
  - intros [= <-]. exists x. split; [left | done].
  - destruct (Json.encode_items enc l) as [e'|r]; [|done].
    intros [= <-]. destruct IH as (y & Hy & Hey); [done|].
    exists y. split; [by right | done].
Qed.

Lemma encode_members_raises (enc : pyval → E pystr) (d : list (pystr * pyval))
    (e : exception) :
  Json.encode_members enc d = inl e → ∃ kv, kv ∈ d ∧ enc kv.2 = inl e.
Proof.
  induction d as [|[k x] d IH]; simpl; [done|].
  destruct (enc x) as [e'|s] eqn:Hx.
  - intros [= <-]. exists (k, x). split; [left | done].
  - destruct (Json.encode_members enc d) as [e'|r]; [|done].
    intros [= <-]. destruct IH as (y & Hy & Hey); [done|].
    exists y. split; [by right | done].
Qed.



Lemma encode_raises (w : world) (v : pyval) :
  ∀ level e, Json.encode w level v = inl e → encoder_error e.
Proof.
  unfold encoder_error.
  induction v as [|b|z|f|s'|l IH|d IH|attrs] using pyval_nested_ind;
    intros level e; simpl; try done.
  - unfold Json.encode_int.
    destruct (_ <? _)%nat; [|done]. intros [= <-]. right. by left.
  - destruct (_ <=? _)%nat; [intros [= <-]; right; by right|].
    destruct l as [|x l]; [done|].
    destruct (Json.encode_items (Json.encode w (S level)) (x :: l)) as [e'|items] eqn:Hitems;
      [|done].
    intros [= <-]. apply encode_items_raises in Hitems as (y & Hy & Hey).
    rewrite Forall_forall in IH. by eapply IH.
  - destruct (_ <=? _)%nat; [intros [= <-]; right; by right|].
    destruct d as [|kv d]; [done|].
    destruct (Json.encode_members (Json.encode w (S level)) (kv :: d)) as [e'|items] eqn:Hitems;
      [|done].
    intros [= <-]. apply encode_members_raises in Hitems as (y & Hy & Hey).
    rewrite Forall_forall in IH. by eapply (IH y).
  - intros [= <-]. by left.
Qed.

Lemma format_output_raises (w : world) (result : Client.QueryResult)
    (text_only verbose search_enabled : bool) (e : exception) :
  Utils.format_output w result text_only verbose search_enabled = inl e →
  encoder_error e.
Proof.
  unfold Utils.format_output, Json.dumps. destruct text_only; [done|].
  apply encode_raises.
Qed.



Lemma json_char_hex_digit (n : N) : json_char (Json.hex_digit (n mod 16)) = true.
Proof.
  assert (Hlt : n mod 16 < 16) by by apply N.mod_upper_bound.
  unfold Json.hex_digit, json_char.
  apply orb_true_iff. right. apply andb_true_iff.
  revert Hlt. generalize (n mod 16). intros d Hlt.
  destruct (d <? 10) eqn:Hd.
  - apply N.ltb_lt in Hd. split; apply N.leb_le; lia.
  - apply N.ltb_ge in Hd. split; apply N.leb_le; lia.
Qed.

Lemma ascii_u_escape (n : N) : forallb json_char (Json.u_escape n) = true.
Proof.
  unfold Json.u_escape. rewrite forallb_app. cbn [forallb].
  by rewrite !json_char_hex_digit.
Qed.

Lemma ascii_escape_char (c : N) : forallb json_char (Json.escape_char c) = true.
Proof.
  unfold Json.escape_char.
  repeat (match goal with |- context [if ?b then _ else _] => destruct b eqn:? end;
          try reflexivity).
  - simpl. rewrite andb_true_r. unfold json_char. apply orb_true_iff. by right.
  - apply ascii_u_escape.
  - rewrite forallb_app. by rewrite !ascii_u_escape.
Qed.

Lemma ascii_concat (items : list pystr) :
  Forall (λ x, forallb json_char x = true) items → forallb json_char (concat items) = true.
Proof.
  induction 1 as [|x items Hx _ IH]; [done|].
  cbn [concat]. by rewrite forallb_app, Hx, IH.
Qed.

Lemma ascii_encode_str (s : pystr) : forallb json_char (Json.encode_str s) = true.
Proof.
  unfold Json.encode_str. rewrite !forallb_app.
  rewrite ascii_concat; [done|].
  apply Forall_fmap, Forall_forall. intros c _. apply ascii_escape_char.
Qed.

Lemma ascii_string_of_uint (d : Decimal.uint) :
  forallb json_char (py (NilEmpty.string_of_uint d)) = true.
Proof. induction d; simpl; by rewrite ?IHd. Qed.

Lemma ascii_encode_int (z : Z) (s : pystr) :
  Json.encode_int z = inr s → forallb json_char s = true.
Proof.
  unfold Json.encode_int, Json.int_sign, Json.int_digits, NilZero.string_of_uint.
  destruct (_ <? _)%nat; [done|]. intros [= <-].
  destruct (Z.to_int z) as [d|d]; destruct d; simpl;
    try reflexivity; apply ascii_string_of_uint.
Qed.

Lemma ascii_encode_float (w : world) (f : PrimFloat.float) :
  forallb json_char (Json.encode_float w f) = true.
Proof.
  unfold Json.encode_float.
  repeat (match goal with |- context [if ?b then _ else _] => destruct b end;
          try reflexivity).
  induction (float_repr w f) as [|c l IH]; [done|].
  rewrite fmap_cons. cbn [forallb]. rewrite IH. by destruct c.
Qed.

Lemma ascii_newline_indent (level : nat) :
  forallb json_char (Json.newline_indent level) = true.
Proof.
  unfold Json.newline_indent. rewrite forallb_app.
  rewrite ascii_concat; [done|]. apply Forall_replicate. reflexivity.
Qed.

Lemma ascii_join (sep : pystr) (items : list pystr) :
  forallb json_char sep = true →
  Forall (λ x, forallb json_char x = true) items →
  forallb json_char (Json.join sep items) = true.
Proof.
  intros Hsep. induction 1 as [|x items Hx Hitems IH]; [done|].
  destruct items as [|y items]; [done|].
  change (Json.join sep (x :: y :: items)) with (x ++ sep ++ Json.join sep (y :: items)).
  by rewrite !forallb_app, Hx, Hsep, IH.
Qed.

Lemma ascii_bracket (opening closing : string) (level : nat) (items : list pystr) :
  forallb json_char (py opening) = true → forallb json_char (py closing) = true →
  Forall (λ x, forallb json_char x = true) items →
  forallb json_char (Json.bracket opening closing level items) = true.
Proof.
  intros Ho Hc Hitems. unfold Json.bracket. rewrite !forallb_app.
  rewrite Ho, Hc, !ascii_newline_indent, ascii_join; try done.
  by rewrite forallb_app, ascii_newline_indent.
Qed.

Lemma encode_items_Forall (P : pystr → Prop) (enc : pyval → E pystr)
    (l : list pyval) (items : list pystr) :
  Forall (λ x, ∀ s, enc x = inr s → P s) l →
  Json.encode_items enc l = inr items → Forall P items.
Proof.
  intros Hl. revert items. induction Hl as [|x l Hx _ IH]; intros items; simpl.
  - intros [= <-]. constructor.
  - destruct (enc x) as [e|s] eqn:Hs; [done|].
    destruct (Json.encode_items enc l) as [e|r]; [done|].
    intros [= <-]. constructor; [by apply Hx | by apply IH].
Qed.

Lemma encode_members_Forall (enc : pyval → E pystr)
    (d : list (pystr * pyval)) (items : list pystr) :
  Forall (λ kv, ∀ s, enc kv.2 = inr s → forallb json_char s = true) d →
  Json.encode_members enc d = inr items →
  Forall (λ x, forallb json_char x = true) items.
Proof.
  intros Hd. revert items. induction Hd as [|[k x] d Hx _ IH]; intros items; simpl.
  - intros [= <-]. constructor.
  - destruct (enc x) as [e|s] eqn:Hs; [done|].
    destruct (Json.encode_members enc d) as [e|r]; [done|].
    intros [= <-]. constructor; [|by apply IH].
    change (forallb json_char (Json.encode_str k ++ py ": " ++ s) = true).
    rewrite !forallb_app, ascii_encode_str. simpl. by apply Hx.
Qed.

(** Every encoding is ASCII text. *)
Lemma ascii_encode (w : world) (v : pyval) :
  ∀ level s, Json.encode w level v = inr s → forallb json_char s = true.
Proof.
  induction v as [|b|z|f|s'|l IH|d IH|attrs] using pyval_nested_ind;
    intros level s; simpl; try done.
  - by intros [= <-].
  - destruct b; by intros [= <-].
  - apply ascii_encode_int.
  - intros [= <-]. apply ascii_encode_float.
  - intros [= <-]. apply ascii_encode_str.
  - destruct (_ <=? _)%nat; [done|].
    destruct l as [|x l]; [by intros [= <-]|].
    destruct (Json.encode_items (Json.encode w (S level)) (x :: l)) as [e|items] eqn:Hitems;
      [done|].
    intros [= <-]. apply ascii_bracket; try done.
    apply (encode_items_Forall _ (Json.encode w (S level)) (x :: l)); [|done].
    eapply Forall_impl; [exact IH|]. intros y Hy s. apply Hy.
  - destruct (_ <=? _)%nat; [done|].
    destruct d as [|kv d]; [by intros [= <-]|].
    destruct (Json.encode_members (Json.encode w (S level)) (kv :: d)) as [e|items] eqn:Hitems;
      [done|].
    intros [= <-]. apply ascii_bracket; try done.
    apply (encode_members_Forall (Json.encode w (S level)) (kv :: d)); [|done].
    eapply Forall_impl; [exact IH|]. intros y Hy s. apply Hy.
Qed.

(** X14. The JSON text that [format_output] returns is ASCII: it is made of
    printable ASCII characters and line feeds only, whatever code points the
    response text and the metadata hold. *)
Theorem format_output_json_is_ascii
    (w : world) (result : Client.QueryResult) (verbose search_enabled : bool) (s : pystr) :
  Utils.format_output w result false verbose search_enabled = inr s →
  forallb json_char s = true.
Proof.
  unfold Utils.format_output, Json.dumps. apply ascii_encode.
Qed.

Lemma format_output_json_is_ascii_witness :
  forallb json_char Fixtures.unicode_json = true.
Proof.
  apply (format_output_json_is_ascii Fixtures.world_without_key
           Fixtures.unicode_result false true).
  reflexivity.
Defined.

(** X15. The record that [format_output] serializes starts with
    [response_text], holding the response text; its keys are among
    [response_text], [url_context_metadata], [grounding_metadata], each at
    most once and in that order.  [url_context_metadata] is there exactly
    when the result has a non-empty list of URL metadata, and then holds one
    object per entry, in order, with [retrieved_url] and
    [url_retrieval_status]. *)
Theorem output_record_shape
    (result : Client.QueryResult) (verbose search_enabled : bool) :
  (Utils.output_record result verbose search_enabled).*1 `sublist_of` output_keys
  ∧ head (Utils.output_record result verbose search_enabled)
    = Some (py "response_text", PStr (Client.response_text result))
  ∧ (∀ v, dict_get (py "url_context_metadata")
            (Utils.output_record result verbose search_enabled) = Some v →
          ∃ metas, Client.url_context_metadata result = Some metas ∧ metas ≠ []
                   ∧ v = PList (url_meta_object <$> metas))
  ∧ (∀ metas, Client.url_context_metadata result = Some metas → metas ≠ [] →
              dict_get (py "url_context_metadata")
                (Utils.output_record result verbose search_enabled)
              = Some (PList (url_meta_object <$> metas))).
Proof.
  unfold Utils.output_record.
  destruct (Client.url_context_metadata result) as [[|m ms]|];
    destruct (Client.grounding_metadata result) as [g|];
    try destruct (verbose && search_enabled && truthy (PDict g));
    (split; [|split; [|split]]).
  all: try (vm_compute;
            repeat first [apply sublist_nil | apply sublist_skip | apply sublist_cons];
            fail).
  all: try reflexivity.
  all: try (intros v Hget; vm_compute in Hget; discriminate Hget).
  all: try (intros metas Hmetas Hne; congruence).
  all: try (intros v Hget; rewrite ?dict_get_set_ne in Hget by done;
            rewrite dict_get_set_eq in Hget; injection Hget as <-;
            by exists (m :: ms)).
  all: intros metas [= <-] _; rewrite ?dict_get_set_ne by done; apply dict_get_set_eq.
Qed.

Lemma output_record_shape_witness :
  dict_get (py "url_context_metadata") (Utils.output_record Fixtures.sample_result true true)
  = Some (PList (url_meta_object
                   <$> default [] (Client.url_context_metadata Fixtures.sample_result))).
Proof.
  apply (proj2 (proj2 (proj2 (output_record_shape Fixtures.sample_result true true)))).
  - reflexivity.
  - discriminate.
Defined.

(** ** commands/query_commands.py *)


Lemma handle_error_client_error (e : exception) (fx : effects) :
  exc_class_of e = MissingApiKeyError ∨ exc_class_of e = QueryError
  ∨ exc_class_of e = ValueError →
  Commands.handle_error e fx
  = (inl (Exit 1),
     Effects (requests fx) (stdout fx) (stderr fx ++ [ Commands.error_line e ])).
Proof.
  unfold Commands.handle_error, isinstance.
  by intros [-> | [-> | ->]].
Qed.


Lemma log_verbose_info_lines (verbose no_search_tool : bool) (fx : effects) :
  Commands.log_verbose_info verbose no_search_tool fx
  = (inr (), Effects (requests fx) (stdout fx)
               (stderr fx ++ progress_lines verbose no_search_tool)).
Proof.
  unfold Commands.log_verbose_info, progress_lines.
  destruct verbose; [|unfold mret, M_ret; rewrite app_nil_r; by destruct fx].
  destruct no_search_tool; unfold mbind, M_bind, echo_err; simpl;
    by rewrite <- app_assoc.
Qed.






Lemma prompt_resolves_to_resolve (w : world) (prompt : option pystr) (stdin : bool)
    (p : pystr) :
  prompt_resolves_to w prompt stdin p →
  stdin && Commands.prompt_given prompt = false
  ∧ Commands.resolve_prompt w prompt stdin no_effects = (inr (Some p), no_effects).
Proof.
  unfold prompt_resolves_to, Commands.resolve_prompt. destruct stdin.
  - intros [-> ->]. done.
  - intros [-> Hp]. split; [done|]. by destruct p.
Qed.

Lemma query_command_resolved (w : world) (prompt : option pystr)
    (stdin no_search_tool verbose text : bool) (p : pystr) :
  prompt_resolves_to w prompt stdin p →
  Commands.query w prompt stdin no_search_tool verbose text no_effects
  = try_except
      (result ← Client.query_with_url_context w (Some p) None (negb no_search_tool)
                  verbose;
       _ ← (if verbose then echo_err (py "[INFO] Query completed successfully")
            else mret ());
       output ← lift (Utils.format_output w result text verbose (negb no_search_tool));
       echo w output)
      Commands.handle_error
      (Effects [] [] (progress_lines verbose no_search_tool)).
Proof.
  intros Hp. apply prompt_resolves_to_resolve in Hp as [Hboth Hres].
  unfold Commands.query. rewrite Hboth.
  unfold mbind at 1, M_bind at 1. rewrite Hres.
  unfold mbind at 1, M_bind at 1. by rewrite log_verbose_info_lines.
Qed.

(** X16. When no prompt can be obtained the command stops with status 1,
    one message on the error stream, nothing on the standard output and no
    request: without [--stdin], when the positional prompt is missing or
    empty; with [--stdin], when stdin is a terminal or the piped text is
    empty or whitespace-only. *)
Theorem command_without_prompt_fails
    (w : world) (prompt : option pystr) (no_search_tool verbose text : bool) :
  Commands.prompt_given prompt = false →
  Commands.run w prompt false no_search_tool verbose text
  = (1%Z, Effects [] [] [ Commands.prompt_required_message ])
  ∧ (stdin_isatty w = true →
     Commands.run w prompt true no_search_tool verbose text
     = (1%Z, Effects [] [] [ py "Error: " ++ Utils.no_stdin_message ]))
  ∧ (stdin_isatty w = false → whitespace_only (stdin_data w) →
     Commands.run w prompt true no_search_tool verbose text
     = (1%Z, Effects [] [] [ py "Error: " ++ Utils.stdin_empty_message ])).
Proof.
  intros Hprompt. unfold Commands.run, Commands.query. rewrite Hprompt.
  split; [|split].
  - simpl. unfold Commands.resolve_prompt. by rewrite Hprompt.
  - intros Htty. simpl. unfold mbind at 1, M_bind at 1.
    unfold Commands.resolve_prompt, Utils.read_stdin. by rewrite Htty.
  - intros Htty Hws. simpl. unfold mbind at 1, M_bind at 1.
    unfold Commands.resolve_prompt, Utils.read_stdin. rewrite Htty.
    rewrite strip_whitespace_only by done. simpl. by rewrite orb_true_r.
Qed.

Lemma command_without_prompt_fails_witness :
  Commands.run Fixtures.world_at_terminal (Some []) false false false false
  = (1%Z, Effects [] [] [ Commands.prompt_required_message ])
  ∧ Commands.run Fixtures.world_at_terminal None true false false false
    = (1%Z, Effects [] [] [ py "Error: " ++ Utils.no_stdin_message ])
  ∧ Commands.run (Fixtures.world_refusing (py "  ")) None true false false false
    = (1%Z, Effects [] [] [ py "Error: " ++ Utils.stdin_empty_message ]).
Proof.
  split; [|split].
  - apply (command_without_prompt_fails Fixtures.world_at_terminal (Some [])).
    reflexivity.
  - apply (command_without_prompt_fails Fixtures.world_at_terminal None);
      reflexivity.
  - apply (command_without_prompt_fails (Fixtures.world_refusing (py "  ")) None).
    + reflexivity.
    + reflexivity.
    + repeat constructor.
Defined.

Lemma init_from_environment (w : world) (k : pystr) (fx : effects) :
  environ w !! py "GEMINI_API_KEY" = Some k → k ≠ [] →
  Client.__init__ w None fx
  = (inr (Client.mkGeminiClient k (py "gemini-2.5-flash")), fx).
Proof. intros Henv Hk. unfold Client.__init__. rewrite Henv. by destruct k. Qed.

(** X18. A successful run: with a key in the environment, a prompt that is
    not blank, a service that answers and a response that parses and
    formats, the command sends the one request (the prompt as resolved, the
    search tool unless [--no-search-tool]) and echoes the progress lines of
    [--verbose] on the error stream.  When the standard output can encode
    the formatted result, the command prints it there and ends with status
    0.  When it cannot (a lone surrogate in the text), [click.echo] raises
    [UnicodeEncodeError], a [ValueError]: nothing is printed on the standard
    output, the error stream ends with "Error: " and the text of the
    exception, and the status is 1. *)
Theorem command_success
    (w : world) (prompt : option pystr) (stdin no_search_tool verbose text : bool)
    (k p out : pystr) (response : pyval) (r : Client.QueryResult) :
  prompt_resolves_to w prompt stdin p →
  environ w !! py "GEMINI_API_KEY" = Some k → k ≠ [] →
  ¬ blank (Some p) →
  generate_content w (command_request k p no_search_tool) = inr response →
  Client.parse_response w response (negb no_search_tool) verbose = inr r →
  Utils.format_output w r text verbose (negb no_search_tool) = inr out →
  Commands.run w prompt stdin no_search_tool verbose text
  = if stdout_encodes w out
    then (0%Z, Effects [ command_request k p no_search_tool ] [ out ]
                 (progress_lines verbose no_search_tool ++ completion_lines verbose))
    else (1%Z, Effects [ command_request k p no_search_tool ] []
                 (progress_lines verbose no_search_tool ++ completion_lines verbose
                  ++ [ py "Error: " ++ encode_error w out ])).
Proof.
  intros Hp Henv Hk Hnb Hsvc Hparse Hformat.
  unfold Commands.run. rewrite (query_command_resolved _ _ _ _ _ _ p Hp).
  unfold try_except, Client.query_with_url_context.
  unfold mbind at 1, M_bind at 1. unfold mbind at 1, M_bind at 1.
  rewrite (init_from_environment w k _ Henv Hk).
  unfold Client.query. rewrite (not_blank_prompt_is_empty p Hnb).
  unfold mbind at 1, M_bind at 1. unfold try_except, send.
  assert (Hreq : Client.request_of (Client.mkGeminiClient k (py "gemini-2.5-flash")) p
                   (negb no_search_tool) = command_request k p no_search_tool)
    by by destruct no_search_tool.
  rewrite Hreq, Hsvc, Hparse. unfold lift at 1. unfold mret at 1, M_ret at 1.
  unfold mbind, M_bind. rewrite Hformat. unfold echo.
  destruct verbose; simpl; destruct (stdout_encodes w out); simpl;
    by rewrite <- ?app_assoc, ?app_nil_r.
Qed.

Lemma command_success_witness :
  Commands.run (Fixtures.world_answering Fixtures.sample_response)
    (Some (py "hello")) false true false true
  = (0%Z, Effects [ command_request (py "secret") (py "hello") true ]
            [ py "Hello World" ] [])
  ∧ Commands.run (Fixtures.world_answering Fixtures.surrogate_response)
      (Some (py "hello")) false true false true
    = (1%Z, Effects [ command_request (py "secret") (py "hello") true ] []
              [ py "Error: " ++ Fixtures.utf8_encode_error [ 0xD800 ] ]).
Proof.
  split.
  - apply (command_success (Fixtures.world_answering Fixtures.sample_response)
             (Some (py "hello")) false true false true (py "secret") (py "hello")
             (py "Hello World") Fixtures.sample_response Fixtures.plain_result).
    + split; [reflexivity | discriminate].
    + reflexivity.
    + discriminate.
    + apply prompt_is_empty_not_blank. reflexivity.
    + reflexivity.
    + vm_compute. reflexivity.
    + reflexivity.
  - apply (command_success (Fixtures.world_answering Fixtures.surrogate_response)
             (Some (py "hello")) false true false true (py "secret") (py "hello")
             [ 0xD800 ] Fixtures.surrogate_response
             (Client.mkQueryResult [ 0xD800 ] None None)).
    + split; [reflexivity | discriminate].
    + reflexivity.
    + discriminate.
    + apply prompt_is_empty_not_blank. reflexivity.
    + reflexivity.
    + vm_compute. reflexivity.
    + reflexivity.
Defined.

(** X19. When the service call fails, the command has sent its one request,
    prints nothing on the standard output, ends with status 1, and the last
    line on the error stream is "Error: " followed by the client's "Query
    failed" message, which carries the description of the failure. *)
Theorem command_reports_service_failure
    (w : world) (prompt : option pystr) (stdin no_search_tool verbose text : bool)
    (k p description : pystr) :
  prompt_resolves_to w prompt stdin p →
  environ w !! py "GEMINI_API_KEY" = Some k → k ≠ [] →
  ¬ blank (Some p) →
  generate_content w (command_request k p no_search_tool) = inl description →
  Commands.run w prompt stdin no_search_tool verbose text
  = (1%Z, Effects [ command_request k p no_search_tool ] []
            (progress_lines verbose no_search_tool
             ++ [ py "Error: " ++ Client.query_failed_message description ])).
Proof.
  intros Hp Henv Hk Hnb Hsvc.
  unfold Commands.run. rewrite (query_command_resolved _ _ _ _ _ _ p Hp).
  unfold try_except, Client.query_with_url_context.
  unfold mbind at 1, M_bind at 1. unfold mbind at 1, M_bind at 1.
  rewrite (init_from_environment w k _ Henv Hk).
  unfold Client.query. rewrite (not_blank_prompt_is_empty p Hnb).
  unfold mbind at 1, M_bind at 1. unfold try_except, send.
  assert (Hreq : Client.request_of (Client.mkGeminiClient k (py "gemini-2.5-flash")) p
                   (negb no_search_tool) = command_request k p no_search_tool)
    by by destruct no_search_tool.
  rewrite Hreq, Hsvc. unfold raise.
  rewrite handle_error_client_error by (simpl; auto). done.
Qed.

Lemma command_reports_service_failure_witness :
  Commands.run (Fixtures.world_refusing (py " hi ")) None true false false false
  = (1%Z, Effects [ command_request (py "secret") (py "hi") false ] []
            [ py "Error: " ++ Client.query_failed_message (py "connection refused") ]).
Proof.
  apply (command_reports_service_failure (Fixtures.world_refusing (py " hi ")) None
           true false false false (py "secret") (py "hi") (py "connection refused")).
  - split; reflexivity.
  - reflexivity.
  - discriminate.
  - apply prompt_is_empty_not_blank. reflexivity.
  - reflexivity.
Defined.

(** X20. Without a usable key ([GEMINI_API_KEY] unset or empty) the command
    ends with status 1 and "Error: " followed by the missing-key message; no
    request is sent and nothing is printed on the standard output.  The
    progress lines of [--verbose] have already been echoed. *)
Theorem command_reports_missing_key
    (w : world) (prompt : option pystr) (stdin no_search_tool verbose text : bool)
    (p : pystr) :
  prompt_resolves_to w prompt stdin p →
  environ w !! py "GEMINI_API_KEY" = None ∨ environ w !! py "GEMINI_API_KEY" = Some [] →
  Commands.run w prompt stdin no_search_tool verbose text
  = (1%Z, Effects [] []
            (progress_lines verbose no_search_tool
             ++ [ py "Error: " ++ Client.missing_api_key_message ])).
Proof.
  intros Hp Henv.
  unfold Commands.run. rewrite (query_command_resolved _ _ _ _ _ _ p Hp).
  unfold try_except, Client.query_with_url_context.
  unfold mbind at 1, M_bind at 1. unfold mbind at 1, M_bind at 1.
  assert (Hinit : ∀ fx, Client.__init__ w None fx
            = (inl (Raise (Exc MissingApiKeyError Client.missing_api_key_message)), fx)).
  { intros fx. unfold Client.__init__. by destruct Henv as [-> | ->]. }
  rewrite Hinit.
  rewrite handle_error_client_error by (simpl; auto). done.
Qed.

Lemma command_reports_missing_key_witness :
  Commands.run Fixtures.world_piped_without_key None true false true false
  = (1%Z, Effects [] []
            (progress_lines true false
             ++ [ py "Error: " ++ Client.missing_api_key_message ])).
Proof.
  apply (command_reports_missing_key Fixtures.world_piped_without_key None
           true false true false (py "hi")).
  - split; reflexivity.
  - left. reflexivity.
Defined.

(** X21. A positional prompt made of whitespace only passes the command's
    own check; with a key in the environment it is rejected by the client:
    status 1, "Error: " followed by the client's empty-prompt message, and
    no request. *)
Theorem command_reports_blank_argument
    (w : world) (no_search_tool verbose text : bool) (k p : pystr) :
  p ≠ [] → whitespace_only p →
  environ w !! py "GEMINI_API_KEY" = Some k → k ≠ [] →
  Commands.run w (Some p) false no_search_tool verbose text
  = (1%Z, Effects [] []
            (progress_lines verbose no_search_tool
             ++ [ py "Error: " ++ Client.empty_prompt_message ])).
Proof.
  intros Hp Hws Henv Hk.
  unfold Commands.run.
  rewrite (query_command_resolved w (Some p) false _ _ _ p) by done.
  unfold try_except, Client.query_with_url_context.
  unfold mbind at 1, M_bind at 1. unfold mbind at 1, M_bind at 1.
  rewrite (init_from_environment w k _ Henv Hk).
  unfold Client.query. rewrite (blank_prompt_is_empty (Some p)) by done.
  unfold raise.
  rewrite handle_error_client_error by (simpl; auto). done.
Qed.

Lemma command_reports_blank_argument_witness :
  Commands.run (Fixtures.world_answering Fixtures.sample_response) (Some (py "  "))
    false false false false
  = (1%Z, Effects [] [] [ py "Error: " ++ Client.empty_prompt_message ]).
Proof.
  apply (command_reports_blank_argument
           (Fixtures.world_answering Fixtures.sample_response) false false false
           (py "secret") (py "  ")).
  - discriminate.
  - repeat constructor.
  - reflexivity.
  - discriminate.
Defined.

Lemma handle_error_encoder_error (e : exception) (fx : effects) :
  encoder_error e →
  Commands.handle_error e fx
  = (inl (Exit 1),
     Effects (requests fx) (stdout fx)
       (stderr fx ++ [ if isinstance e ValueError then Commands.error_line e
                       else Commands.unexpected_message (exc_msg e) ])).
Proof.
  unfold encoder_error, Commands.handle_error, isinstance.
  by intros [-> | [-> | ->]].
Qed.

(** X22. When the query succeeds but the result cannot be serialized, the
    request has been sent, the completion line of [--verbose] has been
    echoed, nothing is printed on the standard output and the status is 1.
    The last line on the error stream is the "Unexpected error" message
    with the pointer to the issue tracker, unless the exception is a
    [ValueError] (an integer over the digit limit), which the command
    reports as "Error: " followed by the text of the exception. *)
Theorem command_reports_unserializable_result
    (w : world) (prompt : option pystr) (stdin no_search_tool verbose text : bool)
    (k p : pystr) (response : pyval) (r : Client.QueryResult) (e : exception) :
  prompt_resolves_to w prompt stdin p →
  environ w !! py "GEMINI_API_KEY" = Some k → k ≠ [] →
  ¬ blank (Some p) →
  generate_content w (command_request k p no_search_tool) = inr response →
  Client.parse_response w response (negb no_search_tool) verbose = inr r →
  Utils.format_output w r text verbose (negb no_search_tool) = inl e →
  Commands.run w prompt stdin no_search_tool verbose text
  = (1%Z, Effects [ command_request k p no_search_tool ] []
            (progress_lines verbose no_search_tool ++ completion_lines verbose
             ++ [ if isinstance e ValueError then Commands.error_line e
                  else Commands.unexpected_message (exc_msg e) ]))
  ∧ contains (py "https://github.com/dnvriend/gemini-url-context-tool/issues")
      (Commands.unexpected_message (exc_msg e)) = true.
Proof.
  intros Hp Henv Hk Hnb Hsvc Hparse Hformat. split.
  - unfold Commands.run. rewrite (query_command_resolved _ _ _ _ _ _ p Hp).
    unfold try_except, Client.query_with_url_context.
    unfold mbind at 1, M_bind at 1. unfold mbind at 1, M_bind at 1.
    rewrite (init_from_environment w k _ Henv Hk).
    unfold Client.query. rewrite (not_blank_prompt_is_empty p Hnb).
    unfold mbind at 1, M_bind at 1. unfold try_except, send.
    assert (Hreq : Client.request_of (Client.mkGeminiClient k (py "gemini-2.5-flash")) p
                     (negb no_search_tool) = command_request k p no_search_tool)
      by by destruct no_search_tool.
    rewrite Hreq, Hsvc, Hparse. unfold lift at 1. unfold mret at 1, M_ret at 1.
    unfold mbind, M_bind. rewrite Hformat.
    apply format_output_raises in Hformat.
    destruct verbose; unfold lift, raise, echo_err, mret, M_ret; cbn beta iota;
      rewrite handle_error_encoder_error by done; simpl; by rewrite <- ?app_assoc.
  - unfold Commands.unexpected_message.
    replace (py "Error: Unexpected error: " ++ exc_msg e ++ nl ++ _)
      with ((py "Error: Unexpected error: " ++ exc_msg e ++ nl
             ++ py "This may be a bug. Please report at:" ++ nl ++ py "  ")
            ++ py "https://github.com/dnvriend/gemini-url-context-tool/issues" ++ [])
      by by rewrite <- !app_assoc.
    apply contains_app.
Qed.

Lemma command_reports_unserializable_result_witness :
  Commands.run (Fixtures.world_answering Fixtures.object_url_response)
    (Some (py "hello")) false true false false
  = (1%Z, Effects [ command_request (py "secret") (py "hello") true ] []
            [ Commands.unexpected_message Json.not_serializable_message ])
  ∧ Commands.run (Fixtures.world_answering Fixtures.huge_int_response)
      (Some (py "hello")) false true false false
    = (1%Z, Effects [ command_request (py "secret") (py "hello") true ] []
              [ py "Error: " ++ Json.int_too_long_message ]).
Proof.
  split.
  - refine (proj1 (command_reports_unserializable_result _ (Some (py "hello")) false true
              false false (py "secret") (py "hello") _
              (Client.mkQueryResult []
                 (Some [ Client.mkUrlMetadata (PObj []) (PStr (py "UNKNOWN")) ]) None)
              (Exc TypeError Json.not_serializable_message) _ _ _ _ _ _ _)).
    + split; [reflexivity | discriminate].
    + reflexivity.
    + discriminate.
    + apply prompt_is_empty_not_blank. reflexivity.
    + reflexivity.
    + reflexivity.
    + reflexivity.
  - refine (proj1 (command_reports_unserializable_result _ (Some (py "hello")) false true
              false false (py "secret") (py "hello") _
              (Client.mkQueryResult []
                 (Some [ Client.mkUrlMetadata (PInt Fixtures.huge_int)
                           (PStr (py "UNKNOWN")) ]) None)
              (Exc ValueError Json.int_too_long_message) _ _ _ _ _ _ _)).
    + split; [reflexivity | discriminate].
    + reflexivity.
    + discriminate.
    + apply prompt_is_empty_not_blank. reflexivity.
    + reflexivity.
    + reflexivity.
    + by vm_compute.
Defined.
